(** * ShoppingCart.js: a shallow embedding and its verified properties

    The development follows [src/ShoppingCart.js].  JavaScript Numbers are
    IEEE 754 binary64 values, modelled by Rocq's primitive [float]; the
    built-ins the class calls ([Math.round], [Number.isInteger],
    [Number.prototype.toFixed], Number-to-String conversion, [parseInt],
    [parseFloat], [String.prototype.toUpperCase], [String.prototype.trim])
    are modelled in [Module Js] from ECMA-262.  Strings are held as their
    UTF-8 bytes; upper-casing and white space follow Unicode 14.0. *)

From Stdlib Require Import ZArith QArith Qround Qpower List Bool Lia.
From Stdlib Require DecimalFacts DecimalPos DecimalN.
From Stdlib Require Import Strings.String Strings.Ascii Numbers.DecimalString.
From Stdlib Require Import Floats.PrimFloat Floats.FloatOps Floats.SpecFloat.
From Stdlib Require Import Floats.FloatAxioms.
Import ListNotations.

Set Warnings "-inexact-float".

(* ===================================================================== *)
(** * JavaScript values and built-ins                                     *)
(* ===================================================================== *)

Module Js.

(** The language values a caller can pass to a method. *)
Inductive value : Type :=
| Undefined
| Null
| Bool (b : bool)
| Number (x : float)
| Str (s : string)
| BigInt (z : Z)
| Symbol
| Object
| Function.

(** [typeof v] *)
Definition typeof (v : value) : string :=
  match v with
  | Undefined => "undefined"
  | Null => "object"
  | Bool _ => "boolean"
  | Number _ => "number"
  | Str _ => "string"
  | BigInt _ => "bigint"
  | Symbol => "symbol"
  | Object => "object"
  | Function => "function"
  end.

(** ToBoolean, the truthiness used by [!v] and [if (v)]. *)
Definition ToBoolean (v : value) : bool :=
  match v with
  | Undefined | Null => false
  | Bool b => b
  | Number x => negb (is_zero x || is_nan x)
  | Str s => negb (String.eqb s "")
  | BigInt z => negb (Z.eqb z 0)
  | Symbol | Object | Function => true
  end.

(** ** Exact values of Numbers *)

Definition pow2 (e : Z) : Q := Qpower (inject_Z 2) e.
Definition pow10 (e : Z) : Q := Qpower (inject_Z 10) e.

(** The real number a finite float stands for, [None] for NaN and the
    infinities. *)
Definition exact (x : float) : option Q :=
  match Prim2SF x with
  | S754_zero _ => Some (inject_Z 0)
  | S754_finite s m e =>
      let a := Qmult (inject_Z (Zpos m)) (pow2 e) in
      Some (if s then Qopp a else a)
  | S754_infinity _ | S754_nan => None
  end.

(** The float of an integer, rounded to nearest, ties to even. *)
Definition of_Z (z : Z) : float :=
  SF2Prim (binary_normalize prec emax z 0 false).

(** The float nearest to [num / den], for [0 <= num] and [0 < den]. *)
Definition of_ratio (num den : Z) : float :=
  if (num =? 0)%Z then zero
  else
    let j := Z.max 0 (Z.log2 den - Z.log2 num + 56) in
    let n := (num * 2 ^ j)%Z in
    let q := (n / den)%Z in
    let r := (n mod den)%Z in
    let loc := if (r =? 0)%Z then loc_Exact
               else loc_Inexact (Z.compare (2 * r) den) in
    SF2Prim (binary_round_aux prec emax false q (- j) loc).

(** ** Number.isInteger and Math.round *)

Definition Number_isInteger (v : value) : bool :=
  match v with
  | Number x =>
      match exact x with
      | Some q => Qeq_bool (inject_Z (Qfloor q)) q
      | None => false
      end
  | _ => false
  end.

(** [Math.round x]: the integral Number closest to [x], the one nearer to
    +Infinity on a tie; NaN, the infinities and the zeros are returned as
    they are, and a negative [x] that rounds to zero gives -0. *)
Definition Math_round (x : float) : float :=
  match Prim2SF x with
  | S754_finite s _ _ =>
      match exact x with
      | Some q =>
          let n := Qfloor (Qplus q (1 # 2)) in
          if (n =? 0)%Z then (if s then neg_zero else zero) else of_Z n
      | None => x
      end
  | _ => x
  end.

(** ** Strings

    A string is held as the bytes of its UTF-8 form: a pair of surrogates
    as the four bytes of the code point it encodes, a surrogate outside a
    pair as the three bytes of its own number.  A string literal of this
    file is then the JavaScript string it shows, and two strings are the
    same when their bytes are.  The functions below read a string code
    point by code point, with the number of its bytes as fuel, which is
    never used up; a byte that starts no well-formed sequence, which no
    JavaScript string gives, is taken as it is. *)

Local Open Scope string_scope.

Definition byteOf (c : ascii) : Z := Z.of_N (N_of_ascii c).
Definition ofByte (z : Z) : ascii := ascii_of_N (Z.to_N z).

(** The six payload bits of a continuation byte at the head, and the rest. *)
Definition continuation (s : string) : option (Z * string) :=
  match s with
  | String b r =>
      let n := byteOf b in
      if ((128 <=? n) && (n <? 192))%Z then Some ((n - 128)%Z, r) else None
  | EmptyString => None
  end.

(** The code point at the head of a string and the rest, when the string
    starts with a sequence of one to four bytes in its shortest form. *)
Definition lead (s : string) : option (Z * string) :=
  match s with
  | EmptyString => None
  | String b0 r0 =>
      let n0 := byteOf b0 in
      if (n0 <? 128)%Z then Some (n0, r0)
      else if (n0 <? 192)%Z then None
      else if (n0 <? 224)%Z then
        match continuation r0 with
        | Some (x1, r1) =>
            let c := ((n0 - 192) * 64 + x1)%Z in
            if (128 <=? c)%Z then Some (c, r1) else None
        | None => None
        end
      else if (n0 <? 240)%Z then
        match continuation r0 with
        | Some (x1, r1) =>
            match continuation r1 with
            | Some (x2, r2) =>
                let c := ((n0 - 224) * 4096 + x1 * 64 + x2)%Z in
                if (2048 <=? c)%Z then Some (c, r2) else None
            | None => None
            end
        | None => None
        end
      else if (n0 <? 248)%Z then
        match continuation r0 with
        | Some (x1, r1) =>
            match continuation r1 with
            | Some (x2, r2) =>
                match continuation r2 with
                | Some (x3, r3) =>
                    let c := ((n0 - 240) * 262144 + x1 * 4096 + x2 * 64 + x3)%Z in
                    if ((65536 <=? c) && (c <? 1114112))%Z then Some (c, r3)
                    else None
                | None => None
                end
            | None => None
            end
        | None => None
        end
      else None
  end.

(** The bytes of a code point. *)
Definition encode (c : Z) : string :=
  if (c <? 128)%Z then String (ofByte c) EmptyString
  else if (c <? 2048)%Z then
    String (ofByte (192 + c / 64))
      (String (ofByte (128 + c mod 64)) EmptyString)
  else if (c <? 65536)%Z then
    String (ofByte (224 + c / 4096))
      (String (ofByte (128 + (c / 64) mod 64))
         (String (ofByte (128 + c mod 64)) EmptyString))
  else
    String (ofByte (240 + c / 262144))
      (String (ofByte (128 + (c / 4096) mod 64))
         (String (ofByte (128 + (c / 64) mod 64))
            (String (ofByte (128 + c mod 64)) EmptyString))).

(** The string of a sequence of code points. *)
Fixpoint utf8 (l : list Z) : string :=
  match l with
  | [] => EmptyString
  | c :: l' => encode c ++ utf8 l'
  end.

(** The code points of ECMA-262's WhiteSpace and LineTerminator: TAB, LF,
    VT, FF, CR, SP, NBSP, the other space separators of Unicode, LS, PS
    and ZWNBSP. *)
Definition whiteSpaceCodePoints : list Z :=
  [9; 10; 11; 12; 13; 32; 160; 5760; 8192; 8193; 8194; 8195; 8196; 8197;
   8198; 8199; 8200; 8201; 8202; 8232; 8233; 8239; 8287; 12288; 65279]%Z.

Definition isWhiteSpace (c : Z) : bool :=
  existsb (Z.eqb c) whiteSpaceCodePoints.

(** The upper-case mapping of Unicode 14.0, without the rules that depend
    on a locale: the code points mapped to one code point, as runs
    [(first, last, step, offset)], and those mapped to several. *)
Definition upperRanges : list (Z * Z * Z * Z) :=
  [
   (97, 122, 1, (-32)); (181, 181, 1, 743); (224, 246, 1, (-32));
   (248, 254, 1, (-32)); (255, 255, 1, 121); (257, 303, 2, (-1));
   (305, 305, 1, (-232)); (307, 311, 2, (-1)); (314, 328, 2, (-1));
   (331, 375, 2, (-1)); (378, 382, 2, (-1)); (383, 383, 1, (-300));
   (384, 384, 1, 195); (387, 389, 2, (-1)); (392, 392, 1, (-1));
   (396, 396, 1, (-1)); (402, 402, 1, (-1)); (405, 405, 1, 97);
   (409, 409, 1, (-1)); (410, 410, 1, 163); (414, 414, 1, 130);
   (417, 421, 2, (-1)); (424, 424, 1, (-1)); (429, 429, 1, (-1));
   (432, 432, 1, (-1)); (436, 438, 2, (-1)); (441, 441, 1, (-1));
   (445, 445, 1, (-1)); (447, 447, 1, 56); (453, 453, 1, (-1));
   (454, 454, 1, (-2)); (456, 456, 1, (-1)); (457, 457, 1, (-2));
   (459, 459, 1, (-1)); (460, 460, 1, (-2)); (462, 476, 2, (-1));
   (477, 477, 1, (-79)); (479, 495, 2, (-1)); (498, 498, 1, (-1));
   (499, 499, 1, (-2)); (501, 501, 1, (-1)); (505, 543, 2, (-1));
   (547, 563, 2, (-1)); (572, 572, 1, (-1)); (575, 576, 1, 10815);
   (578, 578, 1, (-1)); (583, 591, 2, (-1)); (592, 592, 1, 10783);
   (593, 593, 1, 10780); (594, 594, 1, 10782); (595, 595, 1, (-210));
   (596, 596, 1, (-206)); (598, 599, 1, (-205)); (601, 601, 1, (-202));
   (603, 603, 1, (-203)); (604, 604, 1, 42319); (608, 608, 1, (-205));
   (609, 609, 1, 42315); (611, 611, 1, (-207)); (613, 613, 1, 42280);
   (614, 614, 1, 42308); (616, 616, 1, (-209)); (617, 617, 1, (-211));
   (618, 618, 1, 42308); (619, 619, 1, 10743); (620, 620, 1, 42305);
   (623, 623, 1, (-211)); (625, 625, 1, 10749); (626, 626, 1, (-213));
   (629, 629, 1, (-214)); (637, 637, 1, 10727); (640, 640, 1, (-218));
   (642, 642, 1, 42307); (643, 643, 1, (-218)); (647, 647, 1, 42282);
   (648, 648, 1, (-218)); (649, 649, 1, (-69)); (650, 651, 1, (-217));
   (652, 652, 1, (-71)); (658, 658, 1, (-219)); (669, 669, 1, 42261);
   (670, 670, 1, 42258); (837, 837, 1, 84); (881, 883, 2, (-1));
   (887, 887, 1, (-1)); (891, 893, 1, 130); (940, 940, 1, (-38));
   (941, 943, 1, (-37)); (945, 961, 1, (-32)); (962, 962, 1, (-31));
   (963, 971, 1, (-32)); (972, 972, 1, (-64)); (973, 974, 1, (-63));
   (976, 976, 1, (-62)); (977, 977, 1, (-57)); (981, 981, 1, (-47));
   (982, 982, 1, (-54)); (983, 983, 1, (-8)); (985, 1007, 2, (-1));
   (1008, 1008, 1, (-86)); (1009, 1009, 1, (-80)); (1010, 1010, 1, 7);
   (1011, 1011, 1, (-116)); (1013, 1013, 1, (-96)); (1016, 1016, 1, (-1));
   (1019, 1019, 1, (-1)); (1072, 1103, 1, (-32)); (1104, 1119, 1, (-80));
   (1121, 1153, 2, (-1)); (1163, 1215, 2, (-1)); (1218, 1230, 2, (-1));
   (1231, 1231, 1, (-15)); (1233, 1327, 2, (-1)); (1377, 1414, 1, (-48));
   (4304, 4346, 1, 3008); (4349, 4351, 1, 3008); (5112, 5117, 1, (-8));
   (7296, 7296, 1, (-6254)); (7297, 7297, 1, (-6253));
   (7298, 7298, 1, (-6244)); (7299, 7300, 1, (-6242));
   (7301, 7301, 1, (-6243)); (7302, 7302, 1, (-6236));
   (7303, 7303, 1, (-6181)); (7304, 7304, 1, 35266); (7545, 7545, 1, 35332);
   (7549, 7549, 1, 3814); (7566, 7566, 1, 35384); (7681, 7829, 2, (-1));
   (7835, 7835, 1, (-59)); (7841, 7935, 2, (-1)); (7936, 7943, 1, 8);
   (7952, 7957, 1, 8); (7968, 7975, 1, 8); (7984, 7991, 1, 8);
   (8000, 8005, 1, 8); (8017, 8017, 1, 8); (8019, 8019, 1, 8);
   (8021, 8021, 1, 8); (8023, 8023, 1, 8); (8032, 8039, 1, 8);
   (8048, 8049, 1, 74); (8050, 8053, 1, 86); (8054, 8055, 1, 100);
   (8056, 8057, 1, 128); (8058, 8059, 1, 112); (8060, 8061, 1, 126);
   (8112, 8113, 1, 8); (8126, 8126, 1, (-7205)); (8144, 8145, 1, 8);
   (8160, 8161, 1, 8); (8165, 8165, 1, 7); (8526, 8526, 1, (-28));
   (8560, 8575, 1, (-16)); (8580, 8580, 1, (-1)); (9424, 9449, 1, (-26));
   (11312, 11359, 1, (-48)); (11361, 11361, 1, (-1));
   (11365, 11365, 1, (-10795)); (11366, 11366, 1, (-10792));
   (11368, 11372, 2, (-1)); (11379, 11379, 1, (-1)); (11382, 11382, 1, (-1));
   (11393, 11491, 2, (-1)); (11500, 11502, 2, (-1)); (11507, 11507, 1, (-1));
   (11520, 11557, 1, (-7264)); (11559, 11559, 1, (-7264));
   (11565, 11565, 1, (-7264)); (42561, 42605, 2, (-1));
   (42625, 42651, 2, (-1)); (42787, 42799, 2, (-1)); (42803, 42863, 2, (-1));
   (42874, 42876, 2, (-1)); (42879, 42887, 2, (-1)); (42892, 42892, 1, (-1));
   (42897, 42899, 2, (-1)); (42900, 42900, 1, 48); (42903, 42921, 2, (-1));
   (42933, 42947, 2, (-1)); (42952, 42954, 2, (-1)); (42961, 42961, 1, (-1));
   (42967, 42969, 2, (-1)); (42998, 42998, 1, (-1));
   (43859, 43859, 1, (-928)); (43888, 43967, 1, (-38864));
   (65345, 65370, 1, (-32)); (66600, 66639, 1, (-40));
   (66776, 66811, 1, (-40)); (66967, 66977, 1, (-39));
   (66979, 66993, 1, (-39)); (66995, 67001, 1, (-39));
   (67003, 67004, 1, (-39)); (68800, 68850, 1, (-64));
   (71872, 71903, 1, (-32)); (93792, 93823, 1, (-32));
   (125218, 125251, 1, (-34))
  ]%Z.

Definition upperSpecial : list (Z * list Z) :=
  [
   (223, [83; 83]); (329, [700; 78]); (496, [74; 780]);
   (912, [921; 776; 769]); (944, [933; 776; 769]); (1415, [1333; 1362]);
   (7830, [72; 817]); (7831, [84; 776]); (7832, [87; 778]);
   (7833, [89; 778]); (7834, [65; 702]); (8016, [933; 787]);
   (8018, [933; 787; 768]); (8020, [933; 787; 769]); (8022, [933; 787; 834]);
   (8064, [7944; 921]); (8065, [7945; 921]); (8066, [7946; 921]);
   (8067, [7947; 921]); (8068, [7948; 921]); (8069, [7949; 921]);
   (8070, [7950; 921]); (8071, [7951; 921]); (8072, [7944; 921]);
   (8073, [7945; 921]); (8074, [7946; 921]); (8075, [7947; 921]);
   (8076, [7948; 921]); (8077, [7949; 921]); (8078, [7950; 921]);
   (8079, [7951; 921]); (8080, [7976; 921]); (8081, [7977; 921]);
   (8082, [7978; 921]); (8083, [7979; 921]); (8084, [7980; 921]);
   (8085, [7981; 921]); (8086, [7982; 921]); (8087, [7983; 921]);
   (8088, [7976; 921]); (8089, [7977; 921]); (8090, [7978; 921]);
   (8091, [7979; 921]); (8092, [7980; 921]); (8093, [7981; 921]);
   (8094, [7982; 921]); (8095, [7983; 921]); (8096, [8040; 921]);
   (8097, [8041; 921]); (8098, [8042; 921]); (8099, [8043; 921]);
   (8100, [8044; 921]); (8101, [8045; 921]); (8102, [8046; 921]);
   (8103, [8047; 921]); (8104, [8040; 921]); (8105, [8041; 921]);
   (8106, [8042; 921]); (8107, [8043; 921]); (8108, [8044; 921]);
   (8109, [8045; 921]); (8110, [8046; 921]); (8111, [8047; 921]);
   (8114, [8122; 921]); (8115, [913; 921]); (8116, [902; 921]);
   (8118, [913; 834]); (8119, [913; 834; 921]); (8124, [913; 921]);
   (8130, [8138; 921]); (8131, [919; 921]); (8132, [905; 921]);
   (8134, [919; 834]); (8135, [919; 834; 921]); (8140, [919; 921]);
   (8146, [921; 776; 768]); (8147, [921; 776; 769]); (8150, [921; 834]);
   (8151, [921; 776; 834]); (8162, [933; 776; 768]); (8163, [933; 776; 769]);
   (8164, [929; 787]); (8166, [933; 834]); (8167, [933; 776; 834]);
   (8178, [8186; 921]); (8179, [937; 921]); (8180, [911; 921]);
   (8182, [937; 834]); (8183, [937; 834; 921]); (8188, [937; 921]);
   (64256, [70; 70]); (64257, [70; 73]); (64258, [70; 76]);
   (64259, [70; 70; 73]); (64260, [70; 70; 76]); (64261, [83; 84]);
   (64262, [83; 84]); (64275, [1348; 1350]); (64276, [1348; 1333]);
   (64277, [1348; 1339]); (64278, [1358; 1350]); (64279, [1348; 1341])
  ]%Z.

Definition inRun (c : Z) (run : Z * Z * Z * Z) : bool :=
  let '(first, last, step, _) := run in
  ((first <=? c) && (c <=? last) && ((c - first) mod step =? 0))%Z.

(** The upper-case form of a code point. *)
Definition upperOf (c : Z) : list Z :=
  match find (fun entry => Z.eqb (fst entry) c) upperSpecial with
  | Some (_, mapped) => mapped
  | None =>
      match find (inRun c) upperRanges with
      | Some (_, _, _, offset) => [(c + offset)%Z]
      | None => [c]
      end
  end.

Fixpoint toUpperCaseFrom (fuel : nat) (s : string) : string :=
  match fuel with
  | O => EmptyString
  | S fuel' =>
      match s with
      | EmptyString => EmptyString
      | String b r =>
          match lead s with
          | Some (c, rest) => utf8 (upperOf c) ++ toUpperCaseFrom fuel' rest
          | None => String b (toUpperCaseFrom fuel' r)
          end
      end
  end.

(** [s.toUpperCase()] *)
Definition toUpperCase (s : string) : string :=
  toUpperCaseFrom (String.length s) s.

Fixpoint trimStartFrom (fuel : nat) (s : string) : string :=
  match fuel with
  | O => s
  | S fuel' =>
      match lead s with
      | Some (c, rest) => if isWhiteSpace c then trimStartFrom fuel' rest else s
      | None => s
      end
  end.

Definition trimStart (s : string) : string :=
  trimStartFrom (String.length s) s.

(** A string of white space only. *)
Fixpoint blankFrom (fuel : nat) (s : string) : bool :=
  match s with
  | EmptyString => true
  | String _ _ =>
      match fuel with
      | O => false
      | S fuel' =>
          match lead s with
          | Some (c, rest) => isWhiteSpace c && blankFrom fuel' rest
          | None => false
          end
      end
  end.

Definition blank (s : string) : bool := blankFrom (String.length s) s.

Fixpoint trimEnd (s : string) : string :=
  match s with
  | EmptyString => EmptyString
  | String b r => if blank s then EmptyString else String b (trimEnd r)
  end.

(** [s.trim()] *)
Definition trim (s : string) : string := trimEnd (trimStart s).

Fixpoint zeros (n : nat) : string :=
  match n with
  | O => EmptyString
  | S n' => String "0" (zeros n')
  end.

(** Decimal digits of a non-negative integer, ["0"] for zero. *)
Definition digitsOf (z : Z) : string :=
  NilZero.string_of_uint (N.to_uint (Z.to_N z)).

(** ** Number::toString, radix 10 *)

Definition Qlt_bool (a b : Q) : bool := negb (Qle_bool b a).

(** The least [n] from a lower estimate [n0] on with [v < 10^n]. *)
Fixpoint decimalExponent (fuel : nat) (v : Q) (n : Z) : Z :=
  match fuel with
  | O => n
  | S fuel' => if Qlt_bool v (pow10 n) then n
               else decimalExponent fuel' v (n + 1)
  end.

Section Shortest.
(** [v] is the value of a positive finite float, [lo] and [hi] bound the
    reals that round to it ([closed] when the bounds themselves do), and
    [10^(n-1) <= v < 10^n]. *)
Variables (v lo hi : Q) (closed : bool) (n : Z).

Definition roundsBack (c : Q) : bool :=
  if closed then Qle_bool lo c && Qle_bool c hi
  else Qlt_bool lo c && Qlt_bool c hi.

(** The integers [(s, k, n')] of Number::toString: [s] has [k] digits,
    [s * 10^(n'-k)] rounds to the float and [k] is as small as possible;
    of two candidates the one closer to [v] is taken. *)
Fixpoint shortestFrom (fuel : nat) (k : Z) : Z * Z * Z :=
  let unit := pow10 (n - k) in
  let sl := Qfloor (Qdiv v unit) in
  let sh := (sl + 1)%Z in
  let cl := Qmult (inject_Z sl) unit in
  let ch := Qmult (inject_Z sh) unit in
  let low := (sl, k, n) in
  let high := if (sh =? 10 ^ k)%Z then (1%Z, 1%Z, (n + 1)%Z) else (sh, k, n) in
  match fuel with
  | O => low
  | S fuel' =>
      match roundsBack cl, roundsBack ch with
      | true, true =>
          if Qle_bool (Qminus v cl) (Qminus ch v) then low else high
      | true, false => low
      | false, true => high
      | false, false => shortestFrom fuel' (k + 1)%Z
      end
  end.
End Shortest.

Definition shortest (x : float) : Z * Z * Z :=
  match Prim2SF x with
  | S754_finite _ m e =>
      let v := Qmult (inject_Z (Zpos m)) (pow2 e) in
      let below := if ((Zpos m =? 2 ^ 52) && (-1074 <? e))%Z
                   then pow2 (e - 2) else pow2 (e - 1) in
      let lo := Qminus v below in
      let hi := Qplus v (pow2 (e - 1)) in
      (* 2^l <= v < 2^(l+1), and log10 2 = 0.30102999... *)
      let l := (e + Z.log2 (Zpos m))%Z in
      let n := decimalExponent 8 v (l * 30102 / 100000 - 1) in
      shortestFrom v lo hi (Z.even (Zpos m)) n 17 1
  | _ => (0, 1, 0)%Z
  end.

(** Number::toString(x, 10), the conversion behind template literals and
    String(x). *)
Definition Number_toString (x : float) : string :=
  if is_nan x then "NaN"
  else if is_zero x then "0"
  else if is_infinity x then (if ltb x zero then "-Infinity" else "Infinity")
  else
    let sign := if ltb x zero then "-" else "" in
    let '(s, k, n) := shortest (abs x) in
    let ds := digitsOf s in
    let body :=
      if ((k <=? n) && (n <=? 21))%Z then ds ++ zeros (Z.to_nat (n - k))
      else if ((0 <? n) && (n <=? 21))%Z then
        substring 0 (Z.to_nat n) ds ++ "." ++
        substring (Z.to_nat n) (Z.to_nat (k - n)) ds
      else if ((-6 <? n) && (n <=? 0))%Z then
        "0." ++ zeros (Z.to_nat (- n)) ++ ds
      else
        let e := (n - 1)%Z in
        let es := (if (e <? 0)%Z then "-" else "+") ++ digitsOf (Z.abs e) in
        if (k =? 1)%Z then ds ++ "e" ++ es
        else substring 0 1 ds ++ "." ++ substring 1 (Z.to_nat (k - 1)) ds
             ++ "e" ++ es
    in sign ++ body.

(** ** Number.prototype.toFixed(2) *)

(** [x.toFixed(2)]: the integer [n] with [n / 100] closest to [x], the
    larger one on a tie, printed with two decimals; Numbers of magnitude
    1e21 or more and the non-finite ones are printed by Number::toString. *)
Definition toFixed2 (x : float) : string :=
  match exact x with
  | None => Number_toString x
  | Some q =>
      let neg := ltb x zero in
      let a := if neg then Qopp q else q in
      let sign := if neg then "-" else "" in
      if Qle_bool (pow10 21) a then sign ++ Number_toString (abs x)
      else
        let n := Qfloor (Qplus (Qmult a (inject_Z 100)) (1 # 2)) in
        let m := digitsOf n in
        let m := zeros (3 - String.length m) ++ m in
        let k := String.length m in
        sign ++ substring 0 (k - 2) m ++ "." ++ substring (k - 2) 2 m
  end.

(** ** parseInt and parseFloat on a Number argument *)

Definition digitValue (c : ascii) : option Z :=
  let n := nat_of_ascii c in
  if ((48 <=? n) && (n <=? 57))%nat then Some (Z.of_nat (n - 48)) else None.

(** The longest prefix of decimal digits: its value, its length and the
    rest of the string. *)
Fixpoint readDigits (s : string) (acc : Z) (len : nat) : Z * nat * string :=
  match s with
  | EmptyString => (acc, len, s)
  | String c r =>
      match digitValue c with
      | Some d => readDigits r (10 * acc + d)%Z (S len)
      | None => (acc, len, s)
      end
  end.

Definition readSign (s : string) : bool * string :=
  match s with
  | String "-" r => (true, r)
  | String "+" r => (false, r)
  | _ => (false, s)
  end.

Definition signed (neg : bool) (x : float) : float :=
  if neg then opp x else x.

(** [parseInt(string)] without a radix, on a string that does not start
    with [0x]: leading white space, a sign, then the longest run of decimal
    digits; NaN when there is none. *)
Definition parseInt_string (input : string) : float :=
  let '(neg, s) := readSign (trimStart input) in
  let '(z, len, _) := readDigits s 0 0 in
  match len with
  | O => nan
  | _ => signed neg (of_Z z)
  end.

(** [parseInt(x)] for a Number [x]: the argument is converted to a string
    first.  The decimal form of a Number never starts with [0x]. *)
Definition parseInt (x : float) : float := parseInt_string (Number_toString x).

(** The float nearest to [d * 10^p], for [0 <= d]. *)
Definition of_decimal (d p : Z) : float :=
  if (0 <=? p)%Z then of_Z (d * 10 ^ p) else of_ratio d (10 ^ (- p)).

(** [parseFloat(string)]: leading white space, then the longest prefix
    that is a decimal literal (sign, [Infinity], digits with an optional
    fraction and exponent); NaN when there is none. *)
Definition parseFloat_string (input : string) : float :=
  let '(neg, s) := readSign (trimStart input) in
  if prefix "Infinity" s then signed neg infinity
  else
    let '(ip, ilen, s1) := readDigits s 0 0 in
    let '(m, flen, s2) :=
      match s1 with
      | String "." r => readDigits r ip 0
      | _ => (ip, O, s1)
      end in
    match (ilen + flen)%nat with
    | O => nan
    | _ =>
        let ex :=
          match s2 with
          | String c r =>
              if (Ascii.eqb c "e" || Ascii.eqb c "E")%bool then
                let '(eneg, r') := readSign r in
                let '(ev, elen, _) := readDigits r' 0 0 in
                match elen with
                | O => 0%Z
                | _ => if eneg then (- ev)%Z else ev
                end
              else 0%Z
          | EmptyString => 0%Z
          end in
        signed neg (of_decimal m (ex - Z.of_nat flen))
    end.

(** [parseFloat(x)] for a Number [x]. *)
Definition parseFloat (x : float) : float :=
  parseFloat_string (Number_toString x).

Local Close Scope string_scope.

End Js.

(* ===================================================================== *)
(** * The ShoppingCart class                                              *)
(* ===================================================================== *)

Import Js.
Local Open Scope string_scope.
Local Open Scope float_scope.

(** The double quote and the line feed of the template literals. *)
Definition dq : string := String "034"%char EmptyString.
Definition nl : string := String "010"%char EmptyString.

(** The object stored per product: [{ price, quantity }]. *)
Module Item.
Record t : Type := make { price : float; quantity : float }.
End Item.

(** ** The private Map [#items]

    A JavaScript Map keeps its entries in insertion order and holds a key
    once; the keys this class stores are strings. *)
Module Map.

Definition t : Type := list (string * Item.t).

Fixpoint get (k : string) (m : t) : option Item.t :=
  match m with
  | [] => None
  | (k', v) :: r => if String.eqb k' k then Some v else get k r
  end.

Definition has (k : string) (m : t) : bool :=
  match get k m with Some _ => true | None => false end.

(** In-place change of the object stored under [k]; the entry keeps its
    position. *)
Fixpoint update (k : string) (f : Item.t -> Item.t) (m : t) : t :=
  match m with
  | [] => []
  | (k', v) :: r =>
      if String.eqb k' k then (k', f v) :: r else (k', v) :: update k f r
  end.

(** [m.set(k, v)]: a present key keeps its position, a new one goes to
    the end. *)
Definition set (k : string) (v : Item.t) (m : t) : t :=
  if has k m then update k (fun _ => v) m else (m ++ [(k, v)])%list.

(** [m.delete(k)] *)
Fixpoint delete (k : string) (m : t) : t :=
  match m with
  | [] => []
  | (k', v) :: r => if String.eqb k' k then r else (k', v) :: delete k r
  end.

Definition values (m : t) : list Item.t := List.map snd m.
Definition entries (m : t) : list (string * Item.t) := m.
Definition size (m : t) : nat := List.length m.
Definition clear (m : t) : t := [].

End Map.

(** The two private fields of an instance. *)
Record ShoppingCart : Type := mkCart {
  items : Map.t;
  appliedDiscount : float
}.

Definition TAX_RATE : float := 0.10.

Definition DISCOUNT_CODES : list (string * float) :=
  [("SAVE10", 0.10); ("SAVE20", 0.20)].

(** [DISCOUNT_CODES.hasOwnProperty(k)] and [DISCOUNT_CODES[k]] on an own
    property. *)
Fixpoint ownProperty (k : string) (o : list (string * float)) : option float :=
  match o with
  | [] => None
  | (k', v) :: r => if String.eqb k' k then Some v else ownProperty k r
  end.

Definition constructor : ShoppingCart := mkCart [] 0.

(** What a method call leaves behind: the value it returns, the instance
    after the call and the lines it wrote with [console.error]. *)
Record Outcome : Type := mkOutcome {
  returned : bool;
  this' : ShoppingCart;
  console : list string
}.

(** [v < 0] and [v <= 0]; the class evaluates them on Numbers only, the
    test to their left in the same [||] having settled every other value. *)
Definition ltZero (v : value) : bool :=
  match v with Number x => x <? 0 | _ => false end.
Definition leZero (v : value) : bool :=
  match v with Number x => x <=? 0 | _ => false end.

Definition validateInputs (product price quantity : value) : bool * list string :=
  if negb (ToBoolean product) || negb (String.eqb (typeof product) "string") then
    (false, ["Invalid product name"])
  else if negb (String.eqb (typeof price) "number") || ltZero price then
    (false, ["Price must be a non-negative number"])
  else if negb (Number_isInteger quantity) || leZero quantity then
    (false, ["Quantity must be a positive integer"])
  else (true, []).

(** [addItem(product, price, quantity = 1)]: an absent ([undefined])
    third argument takes the default. *)
Definition addItem (product price quantity : value) (this : ShoppingCart) : Outcome :=
  let quantity := match quantity with Undefined => Number 1 | _ => quantity end in
  let (valid, log) := validateInputs product price quantity in
  if negb valid then mkOutcome false this log
  else
    match product, price, quantity with
    | Str product, Number price, Number quantity =>
        if Map.has product (items this) then
          let bump currentItem :=
            Item.make currentItem.(Item.price)
                      (currentItem.(Item.quantity) + quantity) in
          mkOutcome true
            (mkCart (Map.update product bump (items this)) (appliedDiscount this)) []
        else
          mkOutcome true
            (mkCart (Map.set product (Item.make (parseFloat price) (parseInt quantity))
                             (items this))
                    (appliedDiscount this)) []
    | _, _, _ => mkOutcome false this log
    end.

Definition removeItem (product : value) (this : ShoppingCart) : Outcome :=
  if negb (ToBoolean product) || negb (String.eqb (typeof product) "string") then
    mkOutcome false this ["Invalid product name"]
  else
    match product with
    | Str product =>
        if negb (Map.has product (items this)) then
          mkOutcome false this
            ["Product " ++ dq ++ product ++ dq ++ " not found in cart"]
        else
          mkOutcome true
            (mkCart (Map.delete product (items this)) (appliedDiscount this)) []
    | _ => mkOutcome false this ["Invalid product name"]
    end.

Definition updateQuantity (product quantity : value) (this : ShoppingCart) : Outcome :=
  if negb (ToBoolean product) || negb (String.eqb (typeof product) "string") then
    mkOutcome false this ["Invalid product name"]
  else
    match product with
    | Str product =>
        if negb (Map.has product (items this)) then
          mkOutcome false this
            ["Product " ++ dq ++ product ++ dq ++ " not found in cart"]
        else if negb (Number_isInteger quantity) || leZero quantity then
          mkOutcome false this ["Quantity must be a positive integer"]
        else
          match quantity with
          | Number quantity =>
              let assign item := Item.make item.(Item.price) quantity in
              mkOutcome true
                (mkCart (Map.update product assign (items this))
                        (appliedDiscount this)) []
          | _ => mkOutcome false this ["Quantity must be a positive integer"]
          end
    | _ => mkOutcome false this ["Invalid product name"]
    end.

(** [Math.round(x * 100) / 100] *)
Definition round2 (x : float) : float := Math_round (x * 100) / 100.

Definition getSubtotal (this : ShoppingCart) : float :=
  let subtotal :=
    fold_left (fun subtotal item => subtotal + item.(Item.price) * item.(Item.quantity))
              (Map.values (items this)) 0 in
  round2 subtotal.

Definition applyDiscount (code : value) (this : ShoppingCart) : Outcome :=
  if negb (ToBoolean code) || negb (String.eqb (typeof code) "string") then
    mkOutcome false this ["Invalid discount code"]
  else
    match code with
    | Str code =>
        let normalizedCode := trim (toUpperCase code) in
        match ownProperty normalizedCode DISCOUNT_CODES with
        | None =>
            mkOutcome false this ["Invalid discount code: " ++ dq ++ code ++ dq]
        | Some discountPercentage =>
            mkOutcome true
              (mkCart (items this) (getSubtotal this * discountPercentage)) []
        end
    | _ => mkOutcome false this ["Invalid discount code"]
    end.

Definition getTotal (this : ShoppingCart) : float :=
  let subtotal := getSubtotal this in
  let discountedAmount := subtotal - appliedDiscount this in
  let tax := discountedAmount * TAX_RATE in
  let total := discountedAmount + tax in
  round2 total.

Definition getDiscount (this : ShoppingCart) : float :=
  round2 (appliedDiscount this).

Definition getTax (this : ShoppingCart) : float :=
  let discountedAmount := getSubtotal this - appliedDiscount this in
  let tax := discountedAmount * TAX_RATE in
  round2 tax.

(** The objects [getCartItems] builds. *)
Module Entry.
Record t : Type := make {
  product : string;
  price : float;
  quantity : float;
  itemTotal : float
}.
End Entry.

Definition getCartItems (this : ShoppingCart) : list Entry.t :=
  List.map
    (fun '(product, details) =>
       Entry.make product details.(Item.price) details.(Item.quantity)
                  (round2 (details.(Item.price) * details.(Item.quantity))))
    (Map.entries (items this)).

Definition clearCart (this : ShoppingCart) : ShoppingCart :=
  mkCart (Map.clear (items this)) 0.

Definition getItemCount (this : ShoppingCart) : nat := Map.size (items this).

Definition getSummary (this : ShoppingCart) : string :=
  if Nat.eqb (getItemCount this) 0 then "Cart is empty"
  else
    let items := getCartItems this in
    let summary := "=== CART SUMMARY ===" ++ nl in
    let summary :=
      fold_left
        (fun summary item =>
           summary ++ item.(Entry.product) ++ ": $" ++ toFixed2 item.(Entry.price)
                   ++ " x " ++ Number_toString item.(Entry.quantity)
                   ++ " = $" ++ toFixed2 item.(Entry.itemTotal) ++ nl)
        items summary in
    let summary := summary ++ nl ++ "Subtotal: $" ++ toFixed2 (getSubtotal this) ++ nl in
    let summary :=
      if 0 <? getDiscount this then
        summary ++ "Discount: -$" ++ toFixed2 (getDiscount this) ++ nl
      else summary in
    let summary := summary ++ "Tax (10%): $" ++ toFixed2 (getTax this) ++ nl in
    let summary := summary ++ "==================" ++ nl in
    let summary := summary ++ "TOTAL: $" ++ toFixed2 (getTotal this) in
    summary.

(* ===================================================================== *)
(** * Vocabulary of the properties                                        *)
(* ===================================================================== *)

(** The three methods that change line items, as calls with their
    arguments, and the effect of a sequence of them on an instance. *)
Inductive itemCall : Type :=
| AddItem (product price quantity : value)
| RemoveItem (product : value)
| UpdateQuantity (product quantity : value).

Definition call (c : itemCall) (this : ShoppingCart) : Outcome :=
  match c with
  | AddItem product price quantity => addItem product price quantity this
  | RemoveItem product => removeItem product this
  | UpdateQuantity product quantity => updateQuantity product quantity this
  end.

Fixpoint calls (cs : list itemCall) (this : ShoppingCart) : ShoppingCart :=
  match cs with
  | [] => this
  | c :: cs' => calls cs' (this' (call c this))
  end.

(** The three checks of [#validateInputs] as properties of the arguments:
    the product is not a non-empty string; [typeof price] is not 'number'
    or [price < 0]; the quantity is given and is not an integral Number
    above zero.  The price check is the one the code makes: a NaN price is
    a Number and is not below zero, so it is not caught by it. *)
Definition invalidProduct (product : value) : Prop :=
  match product with
  | Str s => s = EmptyString
  | _ => True
  end.

Definition invalidPrice (price : value) : Prop :=
  match price with
  | Number x => (x <? 0) = true
  | _ => True
  end.

Definition invalidQuantity (quantity : value) : Prop :=
  match quantity with
  | Undefined => False
  | Number x => Number_isInteger (Number x) = false \/ (x <=? 0) = true
  | _ => True
  end.

(** A product argument that names no entry of the cart. *)
Definition notInCart (product : value) (this : ShoppingCart) : Prop :=
  match product with
  | Str p => Map.has p (items this) = false
  | _ => True
  end.

(** A code argument whose trimmed upper-case form is [k]. *)
Definition normalizesTo (code : value) (k : string) : Prop :=
  match code with
  | Str c => trim (toUpperCase c) = k
  | _ => False
  end.

(** The code points of a string.  A pair of surrogates counts as the one
    code point it encodes, so no high surrogate is directly followed by a
    low one. *)
Definition isCodePoint (c : Z) : bool := ((0 <=? c) && (c <? 1114112))%Z.
Definition highSurrogate (c : Z) : bool := ((55296 <=? c) && (c <? 56320))%Z.
Definition lowSurrogate (c : Z) : bool := ((56320 <=? c) && (c <? 57344))%Z.

Fixpoint paired (l : list Z) : bool :=
  match l with
  | [] => false
  | c :: l' =>
      match l' with
      | [] => false
      | d :: _ => (highSurrogate c && lowSurrogate d) || paired l'
      end
  end.

Definition codePoints (l : list Z) : bool :=
  forallb isCodePoint l && negb (paired l).

(** Sequences of white space only. *)
Definition allWhiteSpace (l : list Z) : bool := forallb isWhiteSpace l.

(** The upper-case form of a sequence of code points, and a sequence
    without the white space at its two ends. *)
Definition upperCased (l : list Z) : list Z := flat_map upperOf l.

Fixpoint trimmedStart (l : list Z) : list Z :=
  match l with
  | [] => []
  | c :: l' => if isWhiteSpace c then trimmedStart l' else l
  end.

Fixpoint trimmedEnd (l : list Z) : list Z :=
  match l with
  | [] => []
  | c :: l' => if forallb isWhiteSpace l then [] else c :: trimmedEnd l'
  end.

Definition trimmed (l : list Z) : list Z := trimmedEnd (trimmedStart l).

(** Two sequences of code points that differ only in the case of their
    letters: Unicode gives them the same upper-case form. *)
Definition sameUpToCase (l l' : list Z) : Prop := upperCased l = upperCased l'.

(** The composition of the total from parts rounded one by one. *)
Definition totalOfRoundedParts (subtotal discount : float) : float :=
  round2 (round2 (subtotal - discount) + round2 ((subtotal - discount) * 0.10)).

(** ** Amounts of money as the summary shows them *)

(** A non-negative number of hundredths written with two decimals: the
    digits of the whole part, a point, the digit of the tenths and the
    digit of the hundredths. *)
Definition hundredths (n : Z) : string :=
  digitsOf (n / 100) ++ "." ++ digitsOf ((n / 10) mod 10) ++ digitsOf (n mod 10).

(** The magnitude of a finite Number and the sign in front of it. *)
Definition magnitude (x : float) : option Q :=
  match exact x with
  | Some q => Some (if x <? 0 then Qopp q else q)
  | None => None
  end.

Definition minus (x : float) : string := if x <? 0 then "-" else "".

(** A finite Number rounded to the nearest hundredth, a half going up in
    magnitude, with exactly two decimals. *)
Definition twoDecimals (x : float) : string :=
  match magnitude x with
  | Some a =>
      minus x ++ hundredths (Qfloor (Qplus (Qmult a (inject_Z 100)) (1 # 2)))
  | None => Number_toString x
  end.

(** An amount: with two decimals when its magnitude is below 1e21; from
    1e21 on the sign and the string form of the magnitude, which is in
    exponent notation; NaN, Infinity and -Infinity by name. *)
Definition amount (x : float) : string :=
  match magnitude x with
  | Some a =>
      if Qle_bool (pow10 21) a then minus x ++ Number_toString (abs x)
      else twoDecimals x
  | None => Number_toString x
  end.

(** ** The summary *)

(** What the callback of [forEach] in [getSummary] writes for one entry,
    without its line feed. *)
Definition itemLine (entry : string * Item.t) : string :=
  let '(product, item) := entry in
  product ++ ": $" ++ toFixed2 item.(Item.price) ++ " x "
          ++ Number_toString item.(Item.quantity) ++ " = $"
          ++ toFixed2 (round2 (item.(Item.price) * item.(Item.quantity))).

(** The lines of the description, the amounts written by [show]: one line
    per item in the order of the cart, a blank one, the subtotal, the
    discount when it is above zero, the tax, the separator and the total. *)
Definition describedLine (show : float -> string) (entry : string * Item.t) : string :=
  let '(product, item) := entry in
  product ++ ": $" ++ show item.(Item.price) ++ " x "
          ++ Number_toString item.(Item.quantity) ++ " = $"
          ++ show (round2 (item.(Item.price) * item.(Item.quantity))).

Definition describedLines (show : float -> string) (this : ShoppingCart) : list string :=
  let subtotalLine := "Subtotal: $" ++ show (getSubtotal this) in
  let discountLine := "Discount: -$" ++ show (getDiscount this) in
  let taxLine := "Tax (10%): $" ++ show (getTax this) in
  let totalLine := "TOTAL: $" ++ show (getTotal this) in
  List.app (List.map (describedLine show) (items this))
    (List.app [EmptyString; subtotalLine]
       (List.app (if 0 <? getDiscount this then [discountLine] else [])
          [taxLine; "=================="; totalLine])).

(** Lines joined by line feeds, none after the last. *)
Fixpoint joinLines (ls : list string) : string :=
  match ls with
  | [] => EmptyString
  | [l] => l
  | l :: ls' => l ++ nl ++ joinLines ls'
  end.

(** The summary as the claim words it: no line above the items and every
    amount with two decimals. *)
Definition claimedSummary (this : ShoppingCart) : string :=
  if Nat.eqb (getItemCount this) 0 then "Cart is empty"
  else joinLines (describedLines twoDecimals this).

(** The summary as amended: the header line comes first and the amounts
    are written as [amount] has them. *)
Definition describedSummary (this : ShoppingCart) : string :=
  if Nat.eqb (getItemCount this) 0 then "Cart is empty"
  else joinLines ("=== CART SUMMARY ===" :: describedLines amount this).

(** ** Scenarios *)

(** One item of 0.16 and the code SAVE10. *)
Definition sixteenCents : ShoppingCart :=
  this' (applyDiscount (Str "SAVE10")
          (this' (addItem (Str "A") (Number 0.16) (Number 1) constructor))).

(** An item of 10, the code SAVE20, then the item removed: the three
    outcomes in order. *)
Definition emptiedStep1 : Outcome := addItem (Str "A") (Number 10) (Number 1) constructor.
Definition emptiedStep2 : Outcome := applyDiscount (Str "SAVE20") (this' emptiedStep1).
Definition emptiedStep3 : Outcome := removeItem (Str "A") (this' emptiedStep2).

(** One item at 2.50, twice. *)
Definition oneLine : ShoppingCart :=
  this' (addItem (Str "Pen") (Number 2.5) (Number 2) constructor).

(** Two spellings of the codes beyond ASCII: a no-break space before
    save10, and a no-break space before save20 written with a long s. *)
Definition paddedSave10 : string := utf8 [160; 115; 97; 118; 101; 49; 48]%Z.
Definition longSave20 : string := utf8 [160; 383; 97; 118; 101; 50; 48]%Z.

(** One item at a price of 1e21. *)
Definition hugePrice : ShoppingCart :=
  this' (addItem (Str "Bond") (Number 1e21) (Number 1) constructor).

(** The item lines, each closed by a line feed. *)
Fixpoint itemBlock (l : Map.t) : string :=
  match l with
  | [] => EmptyString
  | entry :: l' => itemLine entry ++ nl ++ itemBlock l'
  end.

(** ** The state invariant

    The products of a cart are pairwise different non-empty strings. *)
Definition wellFormed (this : ShoppingCart) : Prop :=
  NoDup (List.map fst (items this)) /\
  Forall (fun k => k <> EmptyString) (List.map fst (items this)).

Arguments Number_isInteger : simpl never.
Arguments parseInt : simpl never.
Arguments parseFloat : simpl never.
Arguments round2 : simpl never.

(* ===================================================================== *)
(** * Sequences of method calls                                           *)
(* ===================================================================== *)

(** The five methods that assign to the private fields. *)
Inductive method : Type :=
| ItemCall (c : itemCall)
| ApplyDiscount (code : value)
| ClearCart.

Definition perform (m : method) (this : ShoppingCart) : ShoppingCart :=
  match m with
  | ItemCall c => this' (call c this)
  | ApplyDiscount code => this' (applyDiscount code this)
  | ClearCart => clearCart this
  end.

Fixpoint run (ms : list method) (this : ShoppingCart) : ShoppingCart :=
  match ms with
  | [] => this
  | m :: ms' => run ms' (perform m this)
  end.

(** The product a line-item call is about. *)
Definition target (c : itemCall) : value :=
  match c with
  | AddItem product _ _ => product
  | RemoveItem product => product
  | UpdateQuantity product _ => product
  end.

(** The table entry a code argument selects, if any. *)
Definition percentageOf (code : value) : option float :=
  match code with
  | Str c => ownProperty (trim (toUpperCase c)) DISCOUNT_CODES
  | _ => None
  end.

(** A value that is not an integral Number above zero. *)
Definition notPositiveInteger (quantity : value) : Prop :=
  match quantity with
  | Number x => Number_isInteger (Number x) = false \/ (x <=? 0) = true
  | _ => True
  end.

(** A cart of two lines with a discount, for the examples. *)
Definition twoLines : ShoppingCart :=
  this' (applyDiscount (Str "SAVE10")
          (this' (addItem (Str "Ink") (Number 4) (Number 3) oneLine))).

(* ===================================================================== *)
(** * The callers in examples.js                                          *)
(* ===================================================================== *)

(** [x.toFixed(digits)] for [digits] from 0 to 100. *)
Definition toFixed (digits : nat) (x : float) : string :=
  match exact x with
  | None => Number_toString x
  | Some q =>
      let neg := ltb x zero in
      let a := if neg then Qopp q else q in
      let sign := if neg then "-" else "" in
      if Qle_bool (pow10 21) a then sign ++ Number_toString (abs x)
      else
        let n := Qfloor (Qplus (Qmult a (pow10 (Z.of_nat digits))) (1 # 2)) in
        let m := digitsOf n in
        match digits with
        | O => sign ++ m
        | _ =>
            let m := zeros (S digits - String.length m) ++ m in
            let k := String.length m in
            sign ++ substring 0 (k - digits) m ++ "." ++ substring (k - digits) digits m
        end
  end.

(** [array.reduce(f)] without an initial value: the first element starts
    the accumulation; on an empty array the call throws a TypeError, which
    [None] stands for. *)
Definition reduce {A : Type} (f : A -> A -> A) (array : list A) : option A :=
  match array with
  | [] => None
  | first :: rest => Some (fold_left f rest first)
  end.

(** How a function ends: it returns, or an exception of the given name
    leaves it. *)
Inductive completion : Type :=
| Returns
| Throws (name : string).

(** The two searches of [analyzeCart]: the first item whose price
    (quantity) no later item exceeds. *)
Definition mostExpensive (items : list Entry.t) : option Entry.t :=
  reduce (fun max item =>
            if max.(Entry.price) <? item.(Entry.price) then item else max)
         items.

Definition highestQty (items : list Entry.t) : option Entry.t :=
  reduce (fun max item =>
            if max.(Entry.quantity) <? item.(Entry.quantity) then item else max)
         items.

(** The size of a Map as a Number. *)
Definition count (n : nat) : float := of_Z (Z.of_nat n).

(** [analyzeCart(cart)]: the lines written with [console.log] and how the
    call ends. *)
Definition analyzeCart (cart : ShoppingCart) : list string * completion :=
  let items := getCartItems cart in
  let itemCount := count (getItemCount cart) in
  let log1 := [nl ++ "🔍 CART ANALYSIS:";
               nl ++ "├─ Total Items: " ++ Number_toString itemCount] in
  match mostExpensive items with
  | None => (log1, Throws "TypeError")
  | Some mostExpensive =>
      let log2 :=
        ["├─ Most Expensive: " ++ mostExpensive.(Entry.product) ++ " ($"
           ++ toFixed 2 mostExpensive.(Entry.price) ++ ")"] in
      match highestQty items with
      | None => (List.app log1 log2, Throws "TypeError")
      | Some highestQty =>
          let log3 :=
            ["├─ Highest Quantity: " ++ highestQty.(Entry.product) ++ " ("
               ++ Number_toString highestQty.(Entry.quantity) ++ " units)"] in
          let avgPrice :=
            getSubtotal cart
            / fold_left (fun sum item => sum + item.(Entry.quantity)) items 0 in
          let log4 :=
            ["├─ Average Price per Unit: $" ++ toFixed 2 avgPrice;
             "├─ Total Tax: $" ++ toFixed 2 (getTax cart)] in
          let savings := getDiscount cart in
          let log5 :=
            if 0 <? savings then
              let savingsPercent := toFixed 1 (savings / getSubtotal cart * 100) in
              ["├─ Total Savings: $" ++ toFixed 2 savings ++ " ("
                 ++ savingsPercent ++ "%)"]
            else ["├─ No Discount Applied"] in
          let log6 := ["└─ Final Total: $" ++ toFixed 2 (getTotal cart)] in
          (List.app log1 (List.app log2 (List.app log3
             (List.app log4 (List.app log5 log6)))), Returns)
      end
  end.

(** The object [createComparison] returns. *)
Module Comparison.
Record t : Type := make {
  discount : value;
  subtotal : float;
  discountAmount : float;
  tax : float;
  total : float
}.
End Comparison.

(** [createComparison(discount)]: the object returned and the lines the
    cart wrote with [console.error]. *)
Definition createComparison (discount : value) : Comparison.t * list string :=
  let cart := constructor in
  let added := addItem (Str "Item Set") (Number 500) (Number 1) cart in
  let cart := this' added in
  let applied :=
    if ToBoolean discount then applyDiscount discount cart
    else mkOutcome false cart [] in
  let cart := this' applied in
  (Comparison.make (if ToBoolean discount then discount else Str "None")
                   (getSubtotal cart) (getDiscount cart) (getTax cart) (getTotal cart),
   List.app (console added) (console applied)).

(** The cart whose figures [createComparison] reports. *)
Definition comparedCart (discount : value) : ShoppingCart :=
  let cart := this' (addItem (Str "Item Set") (Number 500) (Number 1) constructor) in
  this' (if ToBoolean discount then applyDiscount discount cart
         else mkOutcome false cart []).


(* ===================================================================== *)
(** * Proofs                                                              *)
(* ===================================================================== *)

(* ===================================================================== *)
(** * The built-ins on sample values                                      *)
(* ===================================================================== *)

Example Math_round_ties :
  Math_round 2.5 = 3 /\ Math_round (-2.5) = (-2) /\
  Math_round 0.49999999999999994 = 0 /\ Math_round (-0.2) = neg_zero.
Proof. vm_compute. repeat split; reflexivity. Qed.

Example round2_samples :
  round2 1.005 = 1 /\ round2 105.997 = 106 /\ round2 0.1584 = 0.16 /\
  round2 (0.01 * 3) = 0.03.
Proof. vm_compute. repeat split; reflexivity. Qed.

Example Number_isInteger_samples :
  Number_isInteger (Number 3) = true /\
  Number_isInteger (Number 1.5) = false /\
  Number_isInteger (Number infinity) = false /\
  Number_isInteger (Number nan) = false /\
  Number_isInteger (Str "3") = false.
Proof. vm_compute. repeat split; reflexivity. Qed.

Example Number_toString_samples :
  Number_toString 0.16 = "0.16" /\
  Number_toString 123456789012345680000 = "123456789012345680000" /\
  Number_toString 1e21 = "1e+21" /\
  Number_toString 1.5e-7 = "1.5e-7" /\
  Number_toString (-2.2) = "-2.2" /\
  Number_toString neg_zero = "0".
Proof. vm_compute. repeat split; reflexivity. Qed.

Example toFixed2_samples :
  toFixed2 999.99 = "999.99" /\ toFixed2 0.125 = "0.13" /\
  toFixed2 1.005 = "1.00" /\ toFixed2 (-0.001) = "-0.00" /\
  toFixed2 5 = "5.00" /\ toFixed2 infinity = "Infinity".
Proof. vm_compute. repeat split; reflexivity. Qed.

Example parse_samples :
  parseFloat 29.99 = 29.99 /\ parseFloat neg_zero = 0 /\
  parseFloat infinity = infinity /\
  parseInt 2 = 2 /\ parseInt 123456789012345680000 = 123456789012345680000 /\
  parseInt 6.022e23 = 6.
Proof. vm_compute. repeat split; reflexivity. Qed.

Example normalise_samples :
  trim (toUpperCase " save10 ") = "SAVE10" /\
  trim (toUpperCase "Save 20") = "SAVE 20" /\
  trim (toUpperCase "   ") = EmptyString.
Proof. vm_compute. repeat split; reflexivity. Qed.

(** Beyond ASCII: a no-break space and a byte order mark are white space,
    the long s and the sharp s have upper-case forms made of the letter S,
    a letter outside the Basic Multilingual Plane is upper-cased as one
    code point, and U+180E is no white space. *)
Example normalise_unicode_samples :
  trim (toUpperCase (utf8 [160; 83; 65; 86; 69; 49; 48]%Z)) = "SAVE10" /\
  trim (toUpperCase (utf8 [383; 97; 118; 101; 49; 48]%Z)) = "SAVE10" /\
  trim (toUpperCase (utf8 [65279; 115; 97; 118; 101; 50; 48; 8232]%Z)) = "SAVE20" /\
  toUpperCase (utf8 [223]%Z) = "SS" /\
  toUpperCase (utf8 [66600]%Z) = utf8 [66560]%Z /\
  toUpperCase (utf8 [55297; 97]%Z) = utf8 [55297; 65]%Z /\
  trim (utf8 [6158; 83; 12288]%Z) = utf8 [6158; 83]%Z.
Proof. vm_compute. repeat split; reflexivity. Qed.
(* ===================================================================== *)
(** * Validation                                                          *)
(* ===================================================================== *)


(** The test [!product || typeof product !== 'string'] lets exactly the
    non-empty strings through. *)
Lemma product_guard (product : value) :
  negb (ToBoolean product) || negb (String.eqb (typeof product) "string") = false ->
  exists p, product = Str p /\ p <> EmptyString.
Proof.
  destruct product as [| |b|x|s|z| | |]; simpl;
    try discriminate; try (rewrite orb_true_r; discriminate).
  rewrite orb_false_r. intros H. exists s. split; [reflexivity|].
  intros ->. discriminate H.
Qed.

Lemma product_guard_string (p : string) :
  p <> EmptyString ->
  negb (ToBoolean (Str p)) || negb (String.eqb (typeof (Str p)) "string") = false.
Proof.
  intros Hp. simpl. rewrite orb_false_r.
  destruct p as [|c r]; [contradiction Hp; reflexivity | reflexivity].
Qed.

Lemma product_guard_invalid (product : value) :
  invalidProduct product ->
  negb (ToBoolean product) || negb (String.eqb (typeof product) "string") = true.
Proof.
  destruct product as [| |b|x|s|z| | |]; simpl; intros H;
    try reflexivity; try apply orb_true_r.
  subst s. reflexivity.
Qed.

(** What [#validateInputs] accepts. *)
Lemma validateInputs_accepts (product price quantity : value) (log : list string) :
  validateInputs product price quantity = (true, log) ->
  exists p x q,
    product = Str p /\ p <> EmptyString /\
    price = Number x /\ (x <? 0) = false /\
    quantity = Number q /\ Number_isInteger (Number q) = true /\ (q <=? 0) = false.
Proof.
  unfold validateInputs.
  destruct (negb (ToBoolean product) || negb (String.eqb (typeof product) "string"))
    eqn:Hp; [discriminate|].
  destruct (product_guard _ Hp) as (p & -> & Hne).
  destruct price as [| |b|x|s|z| | |]; simpl; try discriminate.
  destruct (x <? 0) eqn:Hx; [discriminate|].
  destruct quantity as [| |b|q|s|z| | |]; simpl; try discriminate.
  destruct (Number_isInteger (Number q)) eqn:Hi; simpl; [|discriminate].
  destruct (q <=? 0) eqn:Hq; [discriminate|].
  intros _. exists p, x, q. repeat split; assumption.
Qed.

Lemma validateInputs_valid (p : string) (x q : float) :
  p <> EmptyString -> (x <? 0) = false ->
  Number_isInteger (Number q) = true -> (q <=? 0) = false ->
  validateInputs (Str p) (Number x) (Number q) = (true, []).
Proof.
  intros Hp Hx Hi Hq. unfold validateInputs.
  rewrite (product_guard_string p Hp). simpl. rewrite Hx, Hi, Hq. reflexivity.
Qed.

Lemma validateInputs_rejects (product price quantity : value) :
  invalidProduct product \/ invalidPrice price \/ invalidQuantity quantity ->
  fst (validateInputs product price quantity) = false.
Proof.
  unfold validateInputs. intros H.
  destruct (negb (ToBoolean product) || negb (String.eqb (typeof product) "string"))
    eqn:Hp; [reflexivity|].
  destruct H as [H|H].
  { rewrite (product_guard_invalid _ H) in Hp. discriminate. }
  destruct (negb (String.eqb (typeof price) "number") || ltZero price) eqn:Hx;
    [reflexivity|].
  destruct H as [H|H].
  { destruct price; simpl in *; try discriminate. rewrite H in Hx. discriminate. }
  destruct quantity; simpl in *; try reflexivity; try contradiction.
  destruct H as [H|H]; rewrite H; simpl; try reflexivity.
  rewrite orb_true_r. reflexivity.
Qed.

(* ===================================================================== *)
(** * The Map of line items                                               *)
(* ===================================================================== *)

Lemma has_get (k : string) (m : Map.t) :
  Map.has k m = true <-> exists v, Map.get k m = Some v.
Proof.
  unfold Map.has. destruct (Map.get k m) as [v|].
  - split; [eauto | reflexivity].
  - split; [discriminate | intros [v H]; discriminate].
Qed.

Lemma get_update_same (k : string) (f : Item.t -> Item.t) (m : Map.t) :
  Map.get k (Map.update k f m) = option_map f (Map.get k m).
Proof.
  induction m as [|[k' v] r IH]; simpl; [reflexivity|].
  destruct (String.eqb k' k) eqn:E; simpl; rewrite E; [reflexivity | exact IH].
Qed.

Lemma get_update_other (k k' : string) (f : Item.t -> Item.t) (m : Map.t) :
  k' <> k -> Map.get k' (Map.update k f m) = Map.get k' m.
Proof.
  intros Hne. induction m as [|[k0 v] r IH]; simpl; [reflexivity|].
  destruct (String.eqb k0 k) eqn:E; simpl.
  - apply String.eqb_eq in E. subst k0.
    destruct (String.eqb k k') eqn:E'; [|reflexivity].
    apply String.eqb_eq in E'. congruence.
  - rewrite IH. reflexivity.
Qed.

Lemma keys_update (k : string) (f : Item.t -> Item.t) (m : Map.t) :
  List.map fst (Map.update k f m) = List.map fst m.
Proof.
  induction m as [|[k' v] r IH]; simpl; [reflexivity|].
  destruct (String.eqb k' k); simpl; [reflexivity | rewrite IH; reflexivity].
Qed.

Lemma size_update (k : string) (f : Item.t -> Item.t) (m : Map.t) :
  Map.size (Map.update k f m) = Map.size m.
Proof.
  unfold Map.size. rewrite <- (length_map fst), keys_update, length_map.
  reflexivity.
Qed.

Lemma get_app_absent (k : string) (v : Item.t) (m : Map.t) :
  Map.get k m = None -> Map.get k (m ++ [(k, v)])%list = Some v.
Proof.
  induction m as [|[k' v'] r IH]; simpl.
  - rewrite String.eqb_refl. reflexivity.
  - destruct (String.eqb k' k); [discriminate | exact IH].
Qed.

Lemma get_app_other (k k' : string) (v : Item.t) (m : Map.t) :
  k' <> k -> Map.get k' (m ++ [(k, v)])%list = Map.get k' m.
Proof.
  intros Hne. induction m as [|[k0 v0] r IH]; simpl.
  - destruct (String.eqb k k') eqn:E; [|reflexivity].
    apply String.eqb_eq in E. congruence.
  - rewrite IH. reflexivity.
Qed.

Lemma set_absent (k : string) (v : Item.t) (m : Map.t) :
  Map.has k m = false -> Map.set k v m = (m ++ [(k, v)])%list.
Proof. intros H. unfold Map.set. rewrite H. reflexivity. Qed.

(* ===================================================================== *)
(** * addItem                                                             *)
(* ===================================================================== *)

(** A valid call on a product already in the cart adds to its quantity and
    keeps its price, its position and every other entry. *)
Lemma addItem_existing (this : ShoppingCart) (p : string) (x q : float) :
  p <> EmptyString -> (x <? 0) = false ->
  Number_isInteger (Number q) = true -> (q <=? 0) = false ->
  Map.has p (items this) = true ->
  addItem (Str p) (Number x) (Number q) this =
  mkOutcome true
    (mkCart (Map.update p (fun it => Item.make (Item.price it) (Item.quantity it + q))
                        (items this))
            (appliedDiscount this)) [].
Proof.
  intros Hp Hx Hi Hq Hhas. unfold addItem.
  rewrite (validateInputs_valid p x q Hp Hx Hi Hq). simpl. rewrite Hhas.
  reflexivity.
Qed.

(** A valid call on a new product appends an entry whose price and
    quantity went through [parseFloat] and [parseInt]. *)
Lemma addItem_new (this : ShoppingCart) (p : string) (x q : float) :
  p <> EmptyString -> (x <? 0) = false ->
  Number_isInteger (Number q) = true -> (q <=? 0) = false ->
  Map.has p (items this) = false ->
  addItem (Str p) (Number x) (Number q) this =
  mkOutcome true
    (mkCart (items this ++ [(p, Item.make (parseFloat x) (parseInt q))])%list
            (appliedDiscount this)) [].
Proof.
  intros Hp Hx Hi Hq Hhas. unfold addItem.
  rewrite (validateInputs_valid p x q Hp Hx Hi Hq). simpl. rewrite Hhas.
  rewrite (set_absent _ _ _ Hhas). reflexivity.
Qed.

(** The omitted third argument stands for the quantity 1. *)
Lemma addItem_default (this : ShoppingCart) (product price : value) :
  addItem product price Undefined this = addItem product price (Number 1) this.
Proof. reflexivity. Qed.

(** No call of [addItem] touches the discount. *)
Lemma addItem_discount (product price quantity : value) (this : ShoppingCart) :
  appliedDiscount (this' (addItem product price quantity this)) = appliedDiscount this.
Proof.
  unfold addItem.
  destruct (validateInputs product price _) as [valid log].
  destruct valid; simpl; [|reflexivity].
  destruct product; try reflexivity.
  destruct price; try reflexivity.
  destruct quantity; try reflexivity.
  all: destruct (Map.has s (items this)); reflexivity.
Qed.

Lemma removeItem_discount (product : value) (this : ShoppingCart) :
  appliedDiscount (this' (removeItem product this)) = appliedDiscount this.
Proof.
  unfold removeItem.
  destruct (negb (ToBoolean product) || _); [reflexivity|].
  destruct product; try reflexivity.
  destruct (negb (Map.has s (items this))); reflexivity.
Qed.

Lemma updateQuantity_discount (product quantity : value) (this : ShoppingCart) :
  appliedDiscount (this' (updateQuantity product quantity this)) = appliedDiscount this.
Proof.
  unfold updateQuantity.
  destruct (negb (ToBoolean product) || _); [reflexivity|].
  destruct product; try reflexivity.
  destruct (negb (Map.has s (items this))); [reflexivity|].
  destruct (negb (Number_isInteger quantity) || leZero quantity); [reflexivity|].
  destruct quantity; reflexivity.
Qed.

Lemma call_discount (c : itemCall) (this : ShoppingCart) :
  appliedDiscount (this' (call c this)) = appliedDiscount this.
Proof.
  destruct c; simpl;
    [apply addItem_discount | apply removeItem_discount | apply updateQuantity_discount].
Qed.

Lemma calls_discount (cs : list itemCall) (this : ShoppingCart) :
  appliedDiscount (calls cs this) = appliedDiscount this.
Proof.
  revert this. induction cs as [|c cs IH]; intros this; simpl; [reflexivity|].
  rewrite IH. apply call_discount.
Qed.

(** X7: what every valid call of [addItem] does: it returns true; on a product
    in the cart the quantity grows by the argument, the price stays and so
    does the number of entries; on a new product an entry is added whose
    price and quantity are the arguments as read back by [parseFloat] and
    [parseInt]. *)
Lemma addItem_valid (this : ShoppingCart) (p : string) (x q : float) :
  p <> EmptyString -> (x <? 0) = false ->
  Number_isInteger (Number q) = true -> (q <=? 0) = false ->
  let after := addItem (Str p) (Number x) (Number q) this in
  returned after = true /\
  (forall old,
      Map.get p (items this) = Some old ->
      Map.get p (items (this' after))
      = Some (Item.make (Item.price old) (Item.quantity old + q)) /\
      getItemCount (this' after) = getItemCount this) /\
  (Map.get p (items this) = None ->
   Map.get p (items (this' after)) = Some (Item.make (parseFloat x) (parseInt q)) /\
   getItemCount (this' after) = S (getItemCount this)).
Proof.
  intros Hp Hx Hi Hq after. subst after.
  destruct (Map.has p (items this)) eqn:Hhas.
  - rewrite (addItem_existing this p x q Hp Hx Hi Hq Hhas). simpl.
    split; [reflexivity|]. split.
    + intros old Hold. rewrite get_update_same, Hold. split; [reflexivity|].
      apply size_update.
    + intros Hnone. unfold Map.has in Hhas. rewrite Hnone in Hhas. discriminate.
  - rewrite (addItem_new this p x q Hp Hx Hi Hq Hhas). simpl.
    assert (Hnone : Map.get p (items this) = None).
    { unfold Map.has in Hhas. destruct (Map.get p (items this)); [discriminate|reflexivity]. }
    split; [reflexivity|]. split.
    + intros old Hold. rewrite Hnone in Hold. discriminate.
    + intros _. split; [apply get_app_absent; exact Hnone|].
      unfold getItemCount, Map.size. simpl. rewrite length_app. simpl. lia.
Qed.

(** C3 (a defect of the code): the price check asks for a non-negative
    number, and NaN is none; but [typeof NaN] is 'number' and [NaN < 0] is
    false, so [addItem] lets a NaN price in.  The call returns true, writes
    no error line and stores the product with the price NaN, and from then
    on the subtotal and the total of the cart are NaN.  The quantity check
    of the same method does refuse NaN. *)
Theorem addItem_accepts_NaN_price :
  addItem (Str "X") (Number nan) (Number 1) constructor
  = mkOutcome true (mkCart [("X", Item.make nan 1)] 0) [] /\
  is_nan (getSubtotal (this' (addItem (Str "X") (Number nan) (Number 1) constructor)))
  = true /\
  is_nan (getTotal (this' (addItem (Str "X") (Number nan) (Number 1) constructor)))
  = true /\
  returned (addItem (Str "X") (Number 1) (Number nan) constructor) = false.
Proof. vm_compute. repeat split; reflexivity. Qed.

(* ===================================================================== *)
(** * The state invariant                                                 *)
(* ===================================================================== *)

Lemma has_false_not_key (k : string) (m : Map.t) :
  Map.has k m = false -> ~ In k (List.map fst m).
Proof.
  unfold Map.has. induction m as [|[k' v] r IH]; simpl; [tauto|].
  destruct (String.eqb_spec k' k) as [->|Hne]; [discriminate|].
  intros H [E|Hin]; [contradiction | exact (IH H Hin)].
Qed.

Lemma keys_delete_incl (k x : string) (m : Map.t) :
  In x (List.map fst (Map.delete k m)) -> In x (List.map fst m).
Proof.
  induction m as [|[k' v] r IH]; simpl; [tauto|].
  destruct (String.eqb k' k); simpl; [tauto|].
  intros [E|Hin]; [left; exact E | right; exact (IH Hin)].
Qed.

Lemma keys_delete_NoDup (k : string) (m : Map.t) :
  NoDup (List.map fst m) -> NoDup (List.map fst (Map.delete k m)).
Proof.
  induction m as [|[k' v] r IH]; simpl; [trivial|].
  intros H. inversion H as [|? ? Hnotin Hrest]; subst.
  destruct (String.eqb k' k); simpl; [exact Hrest|].
  constructor; [|exact (IH Hrest)].
  intros Hin. apply Hnotin. exact (keys_delete_incl _ _ _ Hin).
Qed.

(** Once deleted, a product of a well-formed cart is gone. *)
Lemma has_delete (k : string) (m : Map.t) :
  NoDup (List.map fst m) -> Map.has k (Map.delete k m) = false.
Proof.
  unfold Map.has. induction m as [|[k' v] r IH]; simpl; [reflexivity|].
  intros H. inversion H as [|? ? Hnotin Hrest]; subst.
  destruct (String.eqb_spec k' k) as [->|Hne].
  - destruct (Map.get k r) eqn:E; [|reflexivity].
    exfalso. apply Hnotin. clear - E.
    induction r as [|[k0 v0] r IH]; simpl in *; [discriminate|].
    destruct (String.eqb_spec k0 k) as [->|_]; [left; reflexivity|].
    right. exact (IH E).
  - simpl. destruct (String.eqb_spec k' k) as [->|_]; [contradiction|].
    exact (IH Hrest).
Qed.

Lemma wellFormed_constructor : wellFormed constructor.
Proof. split; constructor. Qed.

Lemma wellFormed_same_keys (this after : ShoppingCart) :
  List.map fst (items after) = List.map fst (items this) ->
  wellFormed this -> wellFormed after.
Proof. unfold wellFormed. intros ->. trivial. Qed.

Lemma wellFormed_addItem (product price quantity : value) (this : ShoppingCart) :
  wellFormed this -> wellFormed (this' (addItem product price quantity this)).
Proof.
  intros Hwf. unfold addItem.
  destruct (validateInputs product price _) as [valid log] eqn:Hv.
  destruct valid; [|exact Hwf].
  destruct (validateInputs_accepts _ _ _ _ Hv) as (p & x & q & -> & Hp & -> & _ & Hq & _).
  rewrite Hq. simpl.
  destruct (Map.has p (items this)) eqn:Hhas; simpl.
  - apply (wellFormed_same_keys this); [apply keys_update | exact Hwf].
  - rewrite (set_absent _ _ _ Hhas). destruct Hwf as [Hnd Hne].
    split; simpl; rewrite map_app; simpl.
    + apply NoDup_app; [exact Hnd | repeat constructor; tauto |].
      intros k Hin [E|[]]. subst k. exact (has_false_not_key _ _ Hhas Hin).
    + apply Forall_app. split; [exact Hne | repeat constructor; exact Hp].
Qed.

Lemma wellFormed_removeItem (product : value) (this : ShoppingCart) :
  wellFormed this -> wellFormed (this' (removeItem product this)).
Proof.
  intros Hwf. unfold removeItem.
  destruct (negb (ToBoolean product) || _); [exact Hwf|].
  destruct product; try exact Hwf.
  destruct (negb (Map.has s (items this))); [exact Hwf|].
  destruct Hwf as [Hnd Hne]. split; simpl.
  - apply keys_delete_NoDup. exact Hnd.
  - rewrite Forall_forall in *. intros k Hin.
    apply Hne. exact (keys_delete_incl _ _ _ Hin).
Qed.

Lemma wellFormed_updateQuantity (product quantity : value) (this : ShoppingCart) :
  wellFormed this -> wellFormed (this' (updateQuantity product quantity this)).
Proof.
  intros Hwf. unfold updateQuantity.
  destruct (negb (ToBoolean product) || _); [exact Hwf|].
  destruct product; try exact Hwf.
  destruct (negb (Map.has s (items this))); [exact Hwf|].
  destruct (negb (Number_isInteger quantity) || leZero quantity); [exact Hwf|].
  destruct quantity; try exact Hwf.
  apply (wellFormed_same_keys this); [apply keys_update | exact Hwf].
Qed.

Lemma wellFormed_applyDiscount (code : value) (this : ShoppingCart) :
  wellFormed this -> wellFormed (this' (applyDiscount code this)).
Proof.
  intros Hwf. unfold applyDiscount.
  destruct (negb (ToBoolean code) || _); [exact Hwf|].
  destruct code; try exact Hwf.
  destruct (ownProperty _ DISCOUNT_CODES); exact Hwf.
Qed.

Lemma wellFormed_clearCart (this : ShoppingCart) : wellFormed (clearCart this).
Proof. split; constructor. Qed.

(** Every product found in a well-formed cart is a non-empty string. *)
Lemma wellFormed_product_nonempty (this : ShoppingCart) (p : string) :
  wellFormed this -> Map.has p (items this) = true -> p <> EmptyString.
Proof.
  intros [_ Hne] Hhas. rewrite Forall_forall in Hne. apply Hne.
  unfold Map.has in Hhas. clear Hne.
  induction (items this) as [|[k v] r IH]; simpl in *; [discriminate|].
  destruct (String.eqb_spec k p) as [->|_]; [left; reflexivity|].
  right. exact (IH Hhas).
Qed.

(** After a successful [removeItem] on a well-formed cart the product is
    absent and the cart has one entry less. *)
Lemma removeItem_present (this : ShoppingCart) (p : string) :
  p <> EmptyString -> Map.has p (items this) = true ->
  removeItem (Str p) this =
  mkOutcome true (mkCart (Map.delete p (items this)) (appliedDiscount this)) [].
Proof.
  intros Hp Hhas. unfold removeItem.
  rewrite (product_guard_string p Hp), Hhas. reflexivity.
Qed.

(* ===================================================================== *)
(** * Totals                                                              *)
(* ===================================================================== *)

(** C1 (as amended): for every cart state, [getTotal()] is the post-discount
    amount plus ten percent of it, rounded to two decimals once, at the end;
    the post-discount amount is [getSubtotal()], which is rounded, minus the
    stored discount amount, which is not.  Neither the post-discount amount
    nor the tax is rounded before the sum. *)
Theorem getTotal_rounds_once (this : ShoppingCart) :
  getTotal this =
  round2 ((getSubtotal this - appliedDiscount this)
          + (getSubtotal this - appliedDiscount this) * 0.10).
Proof. reflexivity. Qed.

(** C1 (as stated) fails: with one item of 0.16 and the code SAVE10 the
    total is 0.16, while the sum of the separately rounded post-discount
    amount and tax is 0.15, whether the discount is taken as stored or as
    [getDiscount()] reports it. *)
Lemma getTotal_not_sum_of_rounded_parts :
  getSubtotal sixteenCents = 0.16 /\
  appliedDiscount sixteenCents = 0.016 /\
  getTotal sixteenCents = 0.16 /\
  totalOfRoundedParts (getSubtotal sixteenCents) (appliedDiscount sixteenCents) = 0.15 /\
  totalOfRoundedParts (getSubtotal sixteenCents) (getDiscount sixteenCents) = 0.15 /\
  (getTotal sixteenCents
   =? totalOfRoundedParts (getSubtotal sixteenCents) (appliedDiscount sixteenCents))
  = false.
Proof. vm_compute. repeat split; reflexivity. Qed.

(** C10: an item of 10 is added, SAVE20 is applied, the item is removed;
    each call returns true, the stored discount is still 2 and the total is
    -2.2, below zero. *)
Theorem total_can_be_negative :
  returned emptiedStep1 = true /\
  returned emptiedStep2 = true /\
  returned emptiedStep3 = true /\
  getSubtotal (this' emptiedStep3) = 0 /\
  appliedDiscount (this' emptiedStep3) = 2 /\
  getTotal (this' emptiedStep3) = (-2.2) /\
  (getTotal (this' emptiedStep3) <? 0) = true.
Proof. vm_compute. repeat split; reflexivity. Qed.

(* ===================================================================== *)
(** * Claims on addItem                                                   *)
(* ===================================================================== *)

(** C2: the call [addItem("X", 1, 1e21)] on an empty cart is valid (1e21
    is an integral Number above zero) and returns true, but the entry it
    stores has quantity 1: [parseInt] reads the digit before the exponent
    of the decimal form 1e+21.  The same call on the cart that already
    holds X adds the full 1e21. *)
Theorem addItem_new_product_truncates_1e21 :
  Number_isInteger (Number 1e21) = true /\
  (1 <=? 1e21) = true /\
  Number_toString 1e21 = "1e+21" /\
  addItem (Str "X") (Number 1) (Number 1e21) constructor
  = mkOutcome true (mkCart [("X", Item.make 1 1)] 0) [] /\
  addItem (Str "X") (Number 1) (Number 1e21) (mkCart [("X", Item.make 1 1)] 0)
  = mkOutcome true (mkCart [("X", Item.make 1 (1 + 1e21))] 0) [].
Proof. vm_compute. repeat split; reflexivity. Qed.

(** X20: for every cart state, [addItem] called with a product that is not
    a non-empty string, or a price whose [typeof] is not 'number' or that
    is below zero, or a quantity that is given and is not an integral
    Number above zero, returns false and leaves the instance (items and
    discount) as it was. *)
Theorem addItem_rejects_invalid
  (this : ShoppingCart) (product price quantity : value) :
  invalidProduct product \/ invalidPrice price \/ invalidQuantity quantity ->
  returned (addItem product price quantity this) = false /\
  this' (addItem product price quantity this) = this.
Proof.
  intros H. unfold addItem.
  assert (Hq : invalidProduct product \/ invalidPrice price \/
               invalidQuantity
                 (match quantity with Undefined => Number 1 | _ => quantity end)).
  { destruct H as [H|[H|H]]; [left; exact H | right; left; exact H |].
    right; right. destruct quantity; try exact H. contradiction H. }
  apply validateInputs_rejects in Hq.
  destruct (validateInputs product price _) as [valid log].
  simpl in Hq. subst valid. split; reflexivity.
Qed.

Lemma addItem_rejects_invalid_witness :
  (returned (addItem (Str "") (Number 5) (Number 1) oneLine) = false /\
   this' (addItem (Str "") (Number 5) (Number 1) oneLine) = oneLine) /\
  (returned (addItem (Str "Ink") (Number (-1)) (Number 1) oneLine) = false /\
   this' (addItem (Str "Ink") (Number (-1)) (Number 1) oneLine) = oneLine) /\
  (returned (addItem (Str "Ink") (Number 5) (Number 1.5) oneLine) = false /\
   this' (addItem (Str "Ink") (Number 5) (Number 1.5) oneLine) = oneLine) /\
  (returned (addItem (Str "Ink") (Number 5) (Number 0) oneLine) = false /\
   this' (addItem (Str "Ink") (Number 5) (Number 0) oneLine) = oneLine) /\
  (returned (addItem Null (Str "5") (Number 1) oneLine) = false /\
   this' (addItem Null (Str "5") (Number 1) oneLine) = oneLine).
Proof.
  exact
    (conj (addItem_rejects_invalid oneLine (Str "") (Number 5) (Number 1)
             (or_introl eq_refl))
    (conj (addItem_rejects_invalid oneLine (Str "Ink") (Number (-1)) (Number 1)
             (or_intror (or_introl eq_refl)))
    (conj (addItem_rejects_invalid oneLine (Str "Ink") (Number 5) (Number 1.5)
             (or_intror (or_intror (or_introl eq_refl))))
    (conj (addItem_rejects_invalid oneLine (Str "Ink") (Number 5) (Number 0)
             (or_intror (or_intror (or_intror eq_refl))))
          (addItem_rejects_invalid oneLine Null (Str "5") (Number 1)
             (or_introl I)))))).
Defined.

(* ===================================================================== *)
(** * The discount survives item changes                                  *)
(* ===================================================================== *)

(** C6: after a successful [applyDiscount], any sequence of [addItem],
    [removeItem] and [updateQuantity] calls, with any arguments, leaves the
    stored discount amount at the value [applyDiscount] gave it. *)
Theorem discount_unchanged_by_item_calls
  (this : ShoppingCart) (code : value) (cs : list itemCall) :
  returned (applyDiscount code this) = true ->
  appliedDiscount (calls cs (this' (applyDiscount code this)))
  = appliedDiscount (this' (applyDiscount code this)).
Proof. intros _. apply calls_discount. Qed.

Lemma discount_unchanged_by_item_calls_witness :
  appliedDiscount
    (calls [AddItem (Str "Ink") (Number 40) (Number 3);
            UpdateQuantity (Str "Pen") (Number 7);
            RemoveItem (Str "Pen");
            RemoveItem (Str "Pen");
            AddItem Null Null Null]
       (this' (applyDiscount (Str "save20") oneLine)))
  = appliedDiscount (this' (applyDiscount (Str "save20") oneLine)).
Proof.
  apply (discount_unchanged_by_item_calls oneLine (Str "save20")).
  vm_compute. reflexivity.
Defined.

(* ===================================================================== *)
(** * clearCart                                                           *)
(* ===================================================================== *)

(** C8: for every prior state, [clearCart()] leaves no line item and a
    stored discount of zero, so [getItemCount()] and [getDiscount()] are 0. *)
Theorem clearCart_resets (this : ShoppingCart) :
  items (clearCart this) = [] /\
  appliedDiscount (clearCart this) = 0 /\
  getItemCount (clearCart this) = 0%nat /\
  getDiscount (clearCart this) = 0.
Proof. repeat split. Qed.

(* ===================================================================== *)
(** * removeItem and updateQuantity                                       *)
(* ===================================================================== *)

(** A Number above zero is not at most zero. *)
Lemma positive_not_leZero (q : float) : (0 <? q) = true -> (q <=? 0) = false.
Proof.
  rewrite ltb_spec, leb_spec.
  change (Prim2SF 0) with (S754_zero false).
  destruct (Prim2SF q) as [s|s| |s m e]; try destruct s; cbv; congruence.
Qed.

Lemma removeItem_missing (product : value) (this : ShoppingCart) :
  notInCart product this ->
  returned (removeItem product this) = false /\
  this' (removeItem product this) = this.
Proof.
  intros H. unfold removeItem.
  destruct (negb (ToBoolean product) || _); [split; reflexivity|].
  destruct product; try (split; reflexivity).
  simpl in H. rewrite H. split; reflexivity.
Qed.

Lemma updateQuantity_missing (product quantity : value) (this : ShoppingCart) :
  notInCart product this ->
  returned (updateQuantity product quantity this) = false /\
  this' (updateQuantity product quantity this) = this.
Proof.
  intros H. unfold updateQuantity.
  destruct (negb (ToBoolean product) || _); [split; reflexivity|].
  destruct product; try (split; reflexivity).
  simpl in H. rewrite H. split; reflexivity.
Qed.

Lemma updateQuantity_present (this : ShoppingCart) (p : string) (q : float) :
  p <> EmptyString -> Map.has p (items this) = true ->
  Number_isInteger (Number q) = true -> (0 <? q) = true ->
  updateQuantity (Str p) (Number q) this =
  mkOutcome true
    (mkCart (Map.update p (fun item => Item.make (Item.price item) q) (items this))
            (appliedDiscount this)) [].
Proof.
  intros Hp Hhas Hi Hq. unfold updateQuantity.
  rewrite (product_guard_string p Hp), Hhas. simpl.
  rewrite Hi, (positive_not_leZero q Hq). reflexivity.
Qed.

(** C7: for every cart state, [removeItem] and [updateQuantity] called
    with a product that names no entry return false and leave the instance
    as it was; [updateQuantity] on a product in the cart, with an integral
    Number above zero, returns true and stores that Number as the entry's
    quantity, whatever the quantity was, keeping the entry's price, the
    other entries, the order of the products and the discount. *)
Theorem missing_product_refused_and_quantity_replaced (this : ShoppingCart) :
  (forall product,
      notInCart product this ->
      returned (removeItem product this) = false /\
      this' (removeItem product this) = this) /\
  (forall product quantity,
      notInCart product this ->
      returned (updateQuantity product quantity this) = false /\
      this' (updateQuantity product quantity this) = this) /\
  (forall p q old,
      p <> EmptyString ->
      Map.get p (items this) = Some old ->
      Number_isInteger (Number q) = true ->
      (0 <? q) = true ->
      let after := updateQuantity (Str p) (Number q) this in
      returned after = true /\
      Map.get p (items (this' after)) = Some (Item.make (Item.price old) q) /\
      (forall p', p' <> p ->
                  Map.get p' (items (this' after)) = Map.get p' (items this)) /\
      List.map fst (items (this' after)) = List.map fst (items this) /\
      appliedDiscount (this' after) = appliedDiscount this).
Proof.
  split; [|split].
  - intros product. apply removeItem_missing.
  - intros product quantity. apply updateQuantity_missing.
  - intros p q old Hp Hget Hi Hq after.
    assert (Hhas : Map.has p (items this) = true) by (apply has_get; eauto).
    subst after. rewrite (updateQuantity_present this p q Hp Hhas Hi Hq). simpl.
    repeat split.
    + rewrite get_update_same, Hget. reflexivity.
    + intros p' Hne. apply get_update_other. exact Hne.
    + apply keys_update.
Qed.

Lemma missing_product_refused_and_quantity_replaced_witness :
  (returned (removeItem (Str "Ink") oneLine) = false /\
   this' (removeItem (Str "Ink") oneLine) = oneLine) /\
  (returned (updateQuantity (Str "Ink") (Number 3) oneLine) = false /\
   this' (updateQuantity (Str "Ink") (Number 3) oneLine) = oneLine) /\
  returned (updateQuantity (Str "Pen") (Number 7) oneLine) = true /\
  Map.get "Pen" (items (this' (updateQuantity (Str "Pen") (Number 7) oneLine)))
  = Some (Item.make 2.5 7).
Proof.
  pose proof (missing_product_refused_and_quantity_replaced oneLine) as [Hr [Hu Hs]].
  split; [exact (Hr (Str "Ink") eq_refl)|].
  split; [exact (Hu (Str "Ink") (Number 3) eq_refl)|].
  assert (Hne : "Pen" <> EmptyString) by discriminate.
  destruct (Hs "Pen" 7 (Item.make 2.5 2) Hne eq_refl eq_refl eq_refl) as [H1 [H2 _]].
  split; [exact H1 | exact H2].
Defined.

(* ===================================================================== *)
(** * Normalisation of discount codes                                     *)
(* ===================================================================== *)

Lemma byteOf_ofByte (z : Z) : (0 <= z < 256)%Z -> byteOf (ofByte z) = z.
Proof.
  intros H. unfold byteOf, ofByte.
  rewrite N_ascii_embedding by lia. lia.
Qed.

Lemma byteOf_range (b : ascii) : (0 <= byteOf b < 256)%Z.
Proof.
  unfold byteOf. pose proof (N_ascii_bounded b). lia.
Qed.

Ltac decide_order :=
  repeat match goal with
  | |- context [(?a <? ?b)%Z] => destruct (Z.ltb_spec a b); try lia
  | |- context [(?a <=? ?b)%Z] => destruct (Z.leb_spec a b); try lia
  end.

Lemma continuation_byte (x : Z) (s : string) :
  (0 <= x < 64)%Z -> continuation (String (ofByte (128 + x)) s) = Some (x, s).
Proof.
  intros H. unfold continuation. cbv zeta. rewrite byteOf_ofByte by lia.
  decide_order. cbn [andb]. f_equal. f_equal. lia.
Qed.

Lemma lead_one (c : Z) (s : string) :
  (0 <= c < 128)%Z -> lead (String (ofByte c) s) = Some (c, s).
Proof.
  intros H. unfold lead. cbv zeta. rewrite byteOf_ofByte by lia.
  decide_order. reflexivity.
Qed.

Lemma lead_two (a x : Z) (s : string) :
  (0 <= a < 32)%Z -> (0 <= x < 64)%Z -> (128 <= a * 64 + x)%Z ->
  lead (String (ofByte (192 + a)) (String (ofByte (128 + x)) s))
  = Some ((a * 64 + x)%Z, s).
Proof.
  intros Ha Hx Hc. unfold lead. cbv zeta. rewrite byteOf_ofByte by lia.
  rewrite continuation_byte by lia.
  replace (192 + a - 192)%Z with a by lia.
  decide_order. reflexivity.
Qed.

Lemma lead_three (a x y : Z) (s : string) :
  (0 <= a < 16)%Z -> (0 <= x < 64)%Z -> (0 <= y < 64)%Z ->
  (2048 <= a * 4096 + x * 64 + y)%Z ->
  lead (String (ofByte (224 + a)) (String (ofByte (128 + x))
          (String (ofByte (128 + y)) s)))
  = Some ((a * 4096 + x * 64 + y)%Z, s).
Proof.
  intros Ha Hx Hy Hc. unfold lead. cbv zeta. rewrite byteOf_ofByte by lia.
  rewrite !continuation_byte by lia.
  replace (224 + a - 224)%Z with a by lia.
  decide_order. reflexivity.
Qed.

Lemma lead_four (a x y z : Z) (s : string) :
  (0 <= a < 8)%Z -> (0 <= x < 64)%Z -> (0 <= y < 64)%Z -> (0 <= z < 64)%Z ->
  (65536 <= a * 262144 + x * 4096 + y * 64 + z < 1114112)%Z ->
  lead (String (ofByte (240 + a)) (String (ofByte (128 + x))
          (String (ofByte (128 + y)) (String (ofByte (128 + z)) s))))
  = Some ((a * 262144 + x * 4096 + y * 64 + z)%Z, s).
Proof.
  intros Ha Hx Hy Hz Hc. unfold lead. cbv zeta. rewrite byteOf_ofByte by lia.
  rewrite !continuation_byte by lia.
  replace (240 + a - 240)%Z with a by lia.
  decide_order. reflexivity.
Qed.

Lemma isCodePoint_range (c : Z) :
  isCodePoint c = true <-> (0 <= c < 1114112)%Z.
Proof.
  unfold isCodePoint. rewrite andb_true_iff, Z.leb_le, Z.ltb_lt. tauto.
Qed.

Lemma lead_encode (c : Z) (s : string) :
  isCodePoint c = true -> lead (encode c ++ s) = Some (c, s).
Proof.
  intros H. apply isCodePoint_range in H.
  pose proof (Z.mod_pos_bound c 64 ltac:(lia)) as Hm.
  pose proof (Z.mod_pos_bound (c / 64) 64 ltac:(lia)) as Hm2.
  pose proof (Z.mod_pos_bound (c / 4096) 64 ltac:(lia)) as Hm3.
  pose proof (Z.div_mod c 64 ltac:(lia)) as Hd.
  pose proof (Z.div_mod (c / 64) 64 ltac:(lia)) as Hd2.
  pose proof (Z.div_mod (c / 4096) 64 ltac:(lia)) as Hd3.
  assert (Hdd : (c / 64 / 64 = c / 4096)%Z)
    by (rewrite Z.div_div by lia; reflexivity).
  assert (Hddd : (c / 4096 / 64 = c / 262144)%Z)
    by (rewrite Z.div_div by lia; reflexivity).
  unfold encode.
  destruct (Z.ltb_spec c 128).
  { cbn [append]. apply lead_one. lia. }
  destruct (Z.ltb_spec c 2048).
  { cbn [append].
    replace c with (c / 64 * 64 + c mod 64)%Z at 3 by lia.
    apply lead_two; lia. }
  destruct (Z.ltb_spec c 65536).
  { cbn [append].
    replace c with (c / 4096 * 4096 + (c / 64) mod 64 * 64 + c mod 64)%Z
      at 4 by lia.
    apply lead_three; lia. }
  { cbn [append].
    replace c with (c / 262144 * 262144 + (c / 4096) mod 64 * 4096
                    + (c / 64) mod 64 * 64 + c mod 64)%Z at 5 by lia.
    apply lead_four; lia. }
Qed.

Lemma append_assoc (a b c : string) : (a ++ b) ++ c = a ++ (b ++ c).
Proof.
  induction a as [|x a IH]; [reflexivity|].
  cbn [append]. rewrite IH. reflexivity.
Qed.

Lemma length_append (a b : string) :
  String.length (a ++ b) = (String.length a + String.length b)%nat.
Proof.
  induction a as [|x a IH]; [reflexivity|].
  cbn [append String.length]. rewrite IH. reflexivity.
Qed.

Lemma utf8_app (l l' : list Z) : utf8 (l ++ l') = utf8 l ++ utf8 l'.
Proof.
  induction l as [|c l IH]; [reflexivity|].
  cbn [List.app utf8]. rewrite IH, append_assoc. reflexivity.
Qed.

(** A code point takes at least one byte, and its first byte is followed
    by continuation bytes only. *)
Lemma encode_bytes (c : Z) : exists b r, encode c = String b r.
Proof.
  unfold encode.
  destruct (c <? 128)%Z; [eauto|].
  destruct (c <? 2048)%Z; [eauto|].
  destruct (c <? 65536)%Z; eauto.
Qed.

Lemma length_encode (c : Z) : (1 <= String.length (encode c))%nat.
Proof.
  destruct (encode_bytes c) as (b & r & E). rewrite E.
  cbn [String.length]. lia.
Qed.

(** ** Upper-casing *)

Lemma toUpperCaseFrom_empty (n : nat) : toUpperCaseFrom n EmptyString = EmptyString.
Proof. destruct n; reflexivity. Qed.

Lemma toUpperCaseFrom_lead (n : nat) (s rest : string) (c : Z) :
  lead s = Some (c, rest) ->
  toUpperCaseFrom (S n) s = utf8 (upperOf c) ++ toUpperCaseFrom n rest.
Proof.
  intros H. destruct s as [|b r]; [discriminate|].
  cbn [toUpperCaseFrom]. rewrite H. reflexivity.
Qed.

Lemma toUpperCaseFrom_utf8 (l : list Z) :
  forall n, forallb isCodePoint l = true ->
  (String.length (utf8 l) <= n)%nat ->
  toUpperCaseFrom n (utf8 l) = utf8 (upperCased l).
Proof.
  induction l as [|c l IH]; intros n Hl Hn.
  - apply toUpperCaseFrom_empty.
  - cbn [forallb] in Hl. apply andb_true_iff in Hl. destruct Hl as [Hc Hl].
    cbn [utf8] in *. rewrite length_append in Hn.
    pose proof (length_encode c) as H1.
    destruct n as [|n]; [lia|].
    rewrite (toUpperCaseFrom_lead n _ (utf8 l) c) by (apply lead_encode; exact Hc).
    rewrite IH by (try assumption; lia).
    unfold upperCased. cbn [flat_map]. rewrite utf8_app. reflexivity.
Qed.

Lemma toUpperCase_utf8 (l : list Z) :
  forallb isCodePoint l = true -> toUpperCase (utf8 l) = utf8 (upperCased l).
Proof.
  intros H. unfold toUpperCase. apply toUpperCaseFrom_utf8; [exact H | lia].
Qed.

(** ** Trimming *)

Lemma lead_empty : lead EmptyString = None.
Proof. reflexivity. Qed.

Lemma trimStartFrom_utf8 (l : list Z) :
  forall n, forallb isCodePoint l = true ->
  (String.length (utf8 l) <= n)%nat ->
  trimStartFrom n (utf8 l) = utf8 (trimmedStart l).
Proof.
  induction l as [|c l IH]; intros n Hl Hn.
  - destruct n; reflexivity.
  - cbn [forallb] in Hl. apply andb_true_iff in Hl. destruct Hl as [Hc Hl].
    cbn [utf8] in Hn. rewrite length_append in Hn.
    pose proof (length_encode c) as H1.
    destruct n as [|n]; [lia|].
    cbn [trimStartFrom trimmedStart utf8].
    rewrite (lead_encode c (utf8 l) Hc).
    destruct (isWhiteSpace c); [|reflexivity].
    apply IH; [assumption | lia].
Qed.

Lemma trimStart_utf8 (l : list Z) :
  forallb isCodePoint l = true -> trimStart (utf8 l) = utf8 (trimmedStart l).
Proof.
  intros H. unfold trimStart. apply trimStartFrom_utf8; [exact H | lia].
Qed.

Lemma blankFrom_utf8 (l : list Z) :
  forall n, forallb isCodePoint l = true ->
  (String.length (utf8 l) <= n)%nat ->
  blankFrom n (utf8 l) = forallb isWhiteSpace l.
Proof.
  induction l as [|c l IH]; intros n Hl Hn.
  - destruct n; reflexivity.
  - cbn [forallb] in Hl. apply andb_true_iff in Hl. destruct Hl as [Hc Hl].
    cbn [utf8] in Hn. rewrite length_append in Hn.
    pose proof (length_encode c) as H1.
    destruct n as [|n]; [lia|].
    pose proof (lead_encode c (utf8 l) Hc) as Hlead.
    cbn [utf8 forallb].
    destruct (encode_bytes c) as (b & r & E). rewrite E in *.
    cbn [append] in *. cbn [blankFrom]. rewrite Hlead.
    rewrite IH by (try assumption; lia). reflexivity.
Qed.

Lemma blank_utf8 (l : list Z) :
  forallb isCodePoint l = true -> blank (utf8 l) = forallb isWhiteSpace l.
Proof.
  intros H. unfold blank. apply blankFrom_utf8; [exact H | lia].
Qed.

Lemma blank_continuation (x : Z) (s : string) :
  (0 <= x < 64)%Z -> blank (String (ofByte (128 + x)) s) = false.
Proof.
  intros H. unfold blank. cbn [String.length blankFrom].
  unfold lead. cbv zeta. rewrite byteOf_ofByte by lia.
  decide_order; reflexivity.
Qed.

Lemma trimEnd_cons (b : ascii) (r : string) :
  trimEnd (String b r) = if blank (String b r) then EmptyString else String b (trimEnd r).
Proof. reflexivity. Qed.

Lemma trimEnd_encode (c : Z) (s : string) :
  isCodePoint c = true ->
  trimEnd (encode c ++ s) =
  if blank (encode c ++ s) then EmptyString else encode c ++ trimEnd s.
Proof.
  intros H. apply isCodePoint_range in H.
  pose proof (Z.mod_pos_bound c 64 ltac:(lia)) as Hm.
  pose proof (Z.mod_pos_bound (c / 64) 64 ltac:(lia)) as Hm2.
  pose proof (Z.mod_pos_bound (c / 4096) 64 ltac:(lia)) as Hm3.
  unfold encode.
  destruct (c <? 128)%Z; [|destruct (c <? 2048)%Z; [|destruct (c <? 65536)%Z]];
    cbn [append]; rewrite !trimEnd_cons, ?blank_continuation by lia;
    reflexivity.
Qed.

Lemma trimEnd_utf8 (l : list Z) :
  forallb isCodePoint l = true -> trimEnd (utf8 l) = utf8 (trimmedEnd l).
Proof.
  induction l as [|c l IH]; intros Hl; [reflexivity|].
  pose proof (blank_utf8 (c :: l) Hl) as Hb.
  cbn [forallb] in Hl. apply andb_true_iff in Hl. destruct Hl as [Hc Hl].
  cbn [utf8] in *. rewrite trimEnd_encode by exact Hc. rewrite Hb.
  cbn [trimmedEnd].
  destruct (forallb isWhiteSpace (c :: l)); [reflexivity|].
  cbn [utf8]. rewrite IH by exact Hl. reflexivity.
Qed.

Lemma trimmedStart_codePoints (l : list Z) :
  forallb isCodePoint l = true -> forallb isCodePoint (trimmedStart l) = true.
Proof.
  induction l as [|c l IH]; intros Hl; [reflexivity|].
  cbn [trimmedStart]. destruct (isWhiteSpace c); [|exact Hl].
  cbn [forallb] in Hl. apply andb_true_iff in Hl. apply IH, Hl.
Qed.

Lemma trim_utf8 (l : list Z) :
  forallb isCodePoint l = true -> trim (utf8 l) = utf8 (trimmed l).
Proof.
  intros Hl. unfold trim, trimmed.
  rewrite trimStart_utf8 by exact Hl.
  apply trimEnd_utf8, trimmedStart_codePoints, Hl.
Qed.

(** ** The tables *)

Lemma whiteSpace_listed (c : Z) :
  isWhiteSpace c = true -> In c whiteSpaceCodePoints.
Proof.
  unfold isWhiteSpace. intros H. apply existsb_exists in H.
  destruct H as (w & Hin & Hw). apply Z.eqb_eq in Hw. subst w. exact Hin.
Qed.

Lemma whiteSpace_codePoint (c : Z) :
  isWhiteSpace c = true -> isCodePoint c = true.
Proof.
  intros H. apply whiteSpace_listed in H.
  assert (Hall : forallb isCodePoint whiteSpaceCodePoints = true)
    by (vm_compute; reflexivity).
  exact (proj1 (forallb_forall _ _) Hall c H).
Qed.

(** No white space has an entry in the upper-case table. *)
Lemma upperOf_whiteSpace (c : Z) : isWhiteSpace c = true -> upperOf c = [c].
Proof.
  intros H. apply whiteSpace_listed in H.
  assert (Hall : forallb (fun w => match upperOf w with
                                   | [x] => Z.eqb x w
                                   | _ => false
                                   end) whiteSpaceCodePoints = true)
    by (vm_compute; reflexivity).
  pose proof (proj1 (forallb_forall _ _) Hall c H) as Hc. cbv beta in Hc.
  destruct (upperOf c) as [|x [|y l]]; try discriminate.
  apply Z.eqb_eq in Hc. subst x. reflexivity.
Qed.

(** The upper-case table yields code points. *)
Lemma upperOf_codePoint (c : Z) :
  isCodePoint c = true -> forallb isCodePoint (upperOf c) = true.
Proof.
  intros Hc. unfold upperOf.
  destruct (find (fun entry => Z.eqb (fst entry) c) upperSpecial)
    as [[k mapped]|] eqn:Es.
  - apply find_some in Es. destruct Es as [Hin _].
    assert (Hall : forallb (fun entry => forallb isCodePoint (snd entry))
                     upperSpecial = true) by (vm_compute; reflexivity).
    exact (proj1 (forallb_forall _ _) Hall (k, mapped) Hin).
  - destruct (find (inRun c) upperRanges) as [[[[first last] step] offset]|] eqn:Er.
    + apply find_some in Er. destruct Er as [Hin Hrun].
      assert (Hall : forallb (fun run : Z * Z * Z * Z =>
                        let '(first, last, _, offset) := run in
                        ((0 <=? first + offset) && (last + offset <? 1114112))%Z)
                       upperRanges = true) by (vm_compute; reflexivity).
      pose proof (proj1 (forallb_forall _ _) Hall _ Hin) as Hr.
      cbv beta iota in Hr. unfold inRun in Hrun.
      apply andb_true_iff in Hr. destruct Hr as [H0 H1].
      apply andb_true_iff in Hrun. destruct Hrun as [Hrun _].
      apply andb_true_iff in Hrun. destruct Hrun as [H2 H3].
      cbn [forallb]. rewrite andb_true_r. apply isCodePoint_range. lia.
    + cbn [forallb]. rewrite Hc. reflexivity.
Qed.

Lemma upperCased_codePoints (l : list Z) :
  forallb isCodePoint l = true -> forallb isCodePoint (upperCased l) = true.
Proof.
  induction l as [|c l IH]; intros Hl; [reflexivity|].
  cbn [forallb] in Hl. apply andb_true_iff in Hl. destruct Hl as [Hc Hl].
  unfold upperCased. cbn [flat_map]. rewrite forallb_app.
  rewrite (upperOf_codePoint c Hc). apply IH, Hl.
Qed.

Lemma upperCased_whiteSpace (l : list Z) :
  allWhiteSpace l = true -> upperCased l = l.
Proof.
  induction l as [|c l IH]; intros Hl; [reflexivity|].
  unfold allWhiteSpace in Hl. cbn [forallb] in Hl.
  apply andb_true_iff in Hl. destruct Hl as [Hc Hl].
  unfold upperCased. cbn [flat_map]. rewrite (upperOf_whiteSpace c Hc).
  cbn [List.app]. f_equal. apply IH, Hl.
Qed.

Lemma allWhiteSpace_codePoints (l : list Z) :
  allWhiteSpace l = true -> forallb isCodePoint l = true.
Proof.
  intros H. apply forallb_forall. intros c Hin.
  apply whiteSpace_codePoint.
  exact (proj1 (forallb_forall _ _) H c Hin).
Qed.

(** ** White space at the two ends of a sequence *)

Lemma trimmedStart_whiteSpace (pre l : list Z) :
  allWhiteSpace pre = true -> trimmedStart (pre ++ l) = trimmedStart l.
Proof.
  induction pre as [|c pre IH]; intros H; [reflexivity|].
  unfold allWhiteSpace in H. cbn [forallb] in H.
  apply andb_true_iff in H. destruct H as [Hc H].
  cbn [List.app trimmedStart]. rewrite Hc. apply IH, H.
Qed.

Lemma trimmedEnd_whiteSpace (l post : list Z) :
  allWhiteSpace post = true -> trimmedEnd (l ++ post) = trimmedEnd l.
Proof.
  intros H. induction l as [|c l IH].
  - cbn [List.app]. destruct post as [|d post]; [reflexivity|].
    cbn [trimmedEnd]. unfold allWhiteSpace in H. rewrite H. reflexivity.
  - change ((c :: l) ++ post)%list with (c :: (l ++ post))%list.
    cbn [trimmedEnd]. rewrite IH.
    change (c :: (l ++ post))%list with ((c :: l) ++ post)%list.
    rewrite forallb_app. unfold allWhiteSpace in H. rewrite H, andb_true_r.
    reflexivity.
Qed.

Lemma trimmed_after (l post : list Z) :
  allWhiteSpace post = true -> trimmed (l ++ post) = trimmed l.
Proof.
  intros H. unfold trimmed. induction l as [|c l IH].
  - cbn [List.app]. rewrite <- (app_nil_r post) at 1.
    rewrite trimmedStart_whiteSpace by exact H. reflexivity.
  - cbn [List.app trimmedStart]. destruct (isWhiteSpace c); [exact IH|].
    apply (trimmedEnd_whiteSpace (c :: l) post H).
Qed.

(** White space around a code does not show in its normalised form, and
    the case of its letters shows only through their upper-case form. *)
Lemma normalised_padding (pre core post : list Z) :
  allWhiteSpace pre = true -> allWhiteSpace post = true ->
  forallb isCodePoint core = true ->
  trim (toUpperCase (utf8 (pre ++ core ++ post))) = utf8 (trimmed (upperCased core)).
Proof.
  intros Hpre Hpost Hcore.
  assert (Hall : forallb isCodePoint (pre ++ core ++ post) = true).
  { rewrite !forallb_app, Hcore.
    rewrite (allWhiteSpace_codePoints pre Hpre).
    rewrite (allWhiteSpace_codePoints post Hpost). reflexivity. }
  rewrite toUpperCase_utf8 by exact Hall.
  rewrite trim_utf8 by (apply upperCased_codePoints, Hall).
  unfold upperCased. rewrite !flat_map_app.
  fold (upperCased pre). fold (upperCased core). fold (upperCased post).
  rewrite (upperCased_whiteSpace pre Hpre), (upperCased_whiteSpace post Hpost).
  unfold trimmed at 1. rewrite trimmedStart_whiteSpace by exact Hpre.
  fold (trimmed (upperCased core ++ post)).
  rewrite trimmed_after by exact Hpost. reflexivity.
Qed.

Lemma codePoints_each (l : list Z) :
  codePoints l = true -> forallb isCodePoint l = true.
Proof.
  unfold codePoints. intros H. apply andb_true_iff in H. apply H.
Qed.

(* ===================================================================== *)
(** * applyDiscount                                                       *)
(* ===================================================================== *)

(** The result and the instance after [applyDiscount] on a string, read
    off the table entry of the normalised code. *)
Lemma applyDiscount_string (c : string) (this : ShoppingCart) :
  (returned (applyDiscount (Str c) this), this' (applyDiscount (Str c) this)) =
  match ownProperty (trim (toUpperCase c)) DISCOUNT_CODES with
  | Some percentage => (true, mkCart (items this) (getSubtotal this * percentage))
  | None => (false, this)
  end.
Proof.
  destruct c as [|a c]; [reflexivity|].
  unfold applyDiscount.
  change (negb (ToBoolean (Str (String a c)))
          || negb (String.eqb (typeof (Str (String a c))) "string")) with false.
  cbv iota.
  destruct (ownProperty (trim (toUpperCase (String a c))) DISCOUNT_CODES);
    reflexivity.
Qed.

Lemma applyDiscount_not_string (code : value) (this : ShoppingCart) :
  (forall c, code <> Str c) ->
  returned (applyDiscount code this) = false /\
  this' (applyDiscount code this) = this.
Proof.
  intros H. unfold applyDiscount.
  destruct (negb (ToBoolean code) || _); [split; reflexivity|].
  destruct code; try (split; reflexivity).
  contradiction (H s). reflexivity.
Qed.

Lemma ownProperty_codes (k : string) :
  ownProperty k DISCOUNT_CODES =
  if String.eqb "SAVE10" k then Some 0.10
  else if String.eqb "SAVE20" k then Some 0.20 else None.
Proof. reflexivity. Qed.

(** C4: for every cart state, a code whose trimmed upper-case form is
    SAVE10 (SAVE20) makes [applyDiscount] return true and store the current
    subtotal times 0.10 (0.20) as the discount amount, whatever amount was
    stored before, with the items untouched; every other argument makes it
    return false and leave the instance as it was. *)
Theorem applyDiscount_by_normalised_code (this : ShoppingCart) (code : value) :
  (normalizesTo code "SAVE10" ->
   returned (applyDiscount code this) = true /\
   this' (applyDiscount code this) = mkCart (items this) (getSubtotal this * 0.10)) /\
  (normalizesTo code "SAVE20" ->
   returned (applyDiscount code this) = true /\
   this' (applyDiscount code this) = mkCart (items this) (getSubtotal this * 0.20)) /\
  (~ normalizesTo code "SAVE10" -> ~ normalizesTo code "SAVE20" ->
   returned (applyDiscount code this) = false /\
   this' (applyDiscount code this) = this).
Proof.
  destruct code as [| |b|x|c|z| | |];
    try (split; [intros []|split; [intros []|intros _ _]];
         apply applyDiscount_not_string; discriminate).
  pose proof (applyDiscount_string c this) as E.
  rewrite ownProperty_codes in E. simpl normalizesTo.
  split; [|split].
  - intros H. rewrite H in E. simpl in E. injection E as Hr Ht. split; assumption.
  - intros H. rewrite H in E. simpl in E. injection E as Hr Ht. split; assumption.
  - intros H1 H2.
    destruct (String.eqb_spec "SAVE10" (trim (toUpperCase c))) as [H|_];
      [symmetry in H; contradiction|].
    destruct (String.eqb_spec "SAVE20" (trim (toUpperCase c))) as [H|_];
      [symmetry in H; contradiction|].
    injection E as Hr Ht. split; assumption.
Qed.

Lemma applyDiscount_by_normalised_code_witness :
  (returned (applyDiscount (Str " save10 ") sixteenCents) = true /\
   this' (applyDiscount (Str " save10 ") sixteenCents)
   = mkCart (items sixteenCents) (getSubtotal sixteenCents * 0.10)) /\
  (returned (applyDiscount (Str longSave20) sixteenCents) = true /\
   this' (applyDiscount (Str longSave20) sixteenCents)
   = mkCart (items sixteenCents) (getSubtotal sixteenCents * 0.20)) /\
  (returned (applyDiscount (Str "SAVE 10") sixteenCents) = false /\
   this' (applyDiscount (Str "SAVE 10") sixteenCents) = sixteenCents).
Proof.
  split; [|split].
  - exact (proj1 (applyDiscount_by_normalised_code sixteenCents (Str " save10 "))
                 eq_refl).
  - exact (proj1 (proj2 (applyDiscount_by_normalised_code sixteenCents
                           (Str longSave20)))
                 eq_refl).
  - exact (proj2 (proj2 (applyDiscount_by_normalised_code sixteenCents
                           (Str "SAVE 10")))
                 ltac:(discriminate) ltac:(discriminate)).
Defined.

(** C5: for every cart state, two codes that differ only in the case of
    their letters and in the white space around them make [applyDiscount]
    return the same result and leave the same instance, with the same
    discount amount; so do SAVE10 and save10.  A code is given by its code
    points, those of [pre], [core] and [post] in a row; white space is that
    of ECMA-262 and case is that of Unicode's upper-case mapping. *)
Theorem applyDiscount_case_and_padding
  (this : ShoppingCart) (pre core post pre' core' post' : list Z) :
  allWhiteSpace pre = true -> allWhiteSpace post = true ->
  allWhiteSpace pre' = true -> allWhiteSpace post' = true ->
  codePoints core = true -> codePoints core' = true ->
  sameUpToCase core core' ->
  returned (applyDiscount (Str (utf8 (pre ++ core ++ post))) this)
  = returned (applyDiscount (Str (utf8 (pre' ++ core' ++ post'))) this) /\
  this' (applyDiscount (Str (utf8 (pre ++ core ++ post))) this)
  = this' (applyDiscount (Str (utf8 (pre' ++ core' ++ post'))) this).
Proof.
  intros Hpre Hpost Hpre' Hpost' Hcore Hcore' Hcase.
  pose proof (applyDiscount_string (utf8 (pre ++ core ++ post)) this) as E.
  pose proof (applyDiscount_string (utf8 (pre' ++ core' ++ post')) this) as E'.
  rewrite (normalised_padding pre core post Hpre Hpost (codePoints_each _ Hcore)) in E.
  rewrite (normalised_padding pre' core' post' Hpre' Hpost'
             (codePoints_each _ Hcore')) in E'.
  unfold sameUpToCase in Hcase. rewrite Hcase in E.
  rewrite <- E' in E. injection E as Hr Ht. split; assumption.
Qed.

Lemma applyDiscount_case_and_padding_witness :
  (returned (applyDiscount (Str "SAVE10") oneLine)
   = returned (applyDiscount (Str "save10") oneLine) /\
   this' (applyDiscount (Str "SAVE10") oneLine)
   = this' (applyDiscount (Str "save10") oneLine)) /\
  (returned (applyDiscount (Str " SAVE10 ") oneLine)
   = returned (applyDiscount (Str paddedSave10) oneLine) /\
   this' (applyDiscount (Str " SAVE10 ") oneLine)
   = this' (applyDiscount (Str paddedSave10) oneLine)) /\
  (returned (applyDiscount (Str "Save20") oneLine)
   = returned (applyDiscount (Str longSave20) oneLine) /\
   this' (applyDiscount (Str "Save20") oneLine)
   = this' (applyDiscount (Str longSave20) oneLine)).
Proof.
  split; [|split].
  - exact (applyDiscount_case_and_padding oneLine
             [] [83; 65; 86; 69; 49; 48]%Z [] [] [115; 97; 118; 101; 49; 48]%Z []
             eq_refl eq_refl eq_refl eq_refl eq_refl eq_refl eq_refl).
  - exact (applyDiscount_case_and_padding oneLine
             [32]%Z [83; 65; 86; 69; 49; 48]%Z [32]%Z
             [160]%Z [115; 97; 118; 101; 49; 48]%Z []
             eq_refl eq_refl eq_refl eq_refl eq_refl eq_refl eq_refl).
  - exact (applyDiscount_case_and_padding oneLine
             [] [83; 97; 118; 101; 50; 48]%Z []
             [160]%Z [383; 97; 118; 101; 50; 48]%Z []
             eq_refl eq_refl eq_refl eq_refl eq_refl eq_refl eq_refl).
Defined.

(* ===================================================================== *)
(** * getSummary                                                          *)
(* ===================================================================== *)

(** The [forEach] loop appends the item lines to what the summary holds. *)
Lemma forEach_itemBlock (l : Map.t) (summary : string) :
  fold_left
    (fun summary item =>
       summary ++ item.(Entry.product) ++ ": $" ++ toFixed2 item.(Entry.price)
               ++ " x " ++ Number_toString item.(Entry.quantity)
               ++ " = $" ++ toFixed2 item.(Entry.itemTotal) ++ nl)
    (getCartItems (mkCart l 0)) summary
  = summary ++ itemBlock l.
Proof.
  revert summary. induction l as [|[product details] l IH]; intros summary.
  - simpl. clear. induction summary as [|c s IH]; simpl; [|rewrite <- IH]; reflexivity.
  - unfold getCartItems, Map.entries in *. simpl items in *.
    rewrite map_cons. cbn [fold_left]. rewrite IH.
    cbn [itemBlock itemLine Entry.product Entry.price Entry.quantity Entry.itemTotal].
    rewrite !append_assoc. reflexivity.
Qed.

Lemma joinLines_cons (l : string) (ls : list string) :
  ls <> [] -> joinLines (l :: ls) = l ++ nl ++ joinLines ls.
Proof. destruct ls; [contradiction | reflexivity]. Qed.

Lemma joinLines_items (l : Map.t) (rest : list string) :
  rest <> [] ->
  joinLines (List.map itemLine l ++ rest) = itemBlock l ++ joinLines rest.
Proof.
  intros Hrest. induction l as [|entry l IH]; [reflexivity|].
  cbn [List.map List.app itemBlock]. rewrite joinLines_cons.
  - rewrite IH, !append_assoc. reflexivity.
  - destruct l; [exact Hrest | discriminate].
Qed.

(** ** Decimal digits *)

Lemma string_of_uint_app (u v : Decimal.uint) :
  NilEmpty.string_of_uint (Decimal.app u v)
  = NilEmpty.string_of_uint u ++ NilEmpty.string_of_uint v.
Proof.
  induction u; [reflexivity | ..];
    match goal with
    | |- context [Decimal.app (?D ?u) v] =>
        assert (E : Decimal.app (D u) v = D (Decimal.app u v))
          by (apply DecimalFacts.to_list_inj; rewrite DecimalFacts.app_spec;
              cbn [DecimalFacts.to_list];
              rewrite DecimalFacts.app_spec; reflexivity);
        rewrite E; cbn [NilEmpty.string_of_uint append]; rewrite IHu; reflexivity
    end.
Qed.

Lemma string_of_uint_nonnil (u : Decimal.uint) :
  u <> Decimal.Nil -> NilZero.string_of_uint u = NilEmpty.string_of_uint u.
Proof. destruct u; [contradiction | reflexivity ..]. Qed.

(** The numeral of a positive number starts with a digit other than 0, so
    digits put behind it leave it in normal form. *)
Lemma to_uint_app_norm (p : positive) (w : Decimal.uint) :
  Decimal.unorm (Decimal.app (Pos.to_uint p) w) = Decimal.app (Pos.to_uint p) w.
Proof.
  pose proof (DecimalPos.Unsigned.to_of (Pos.to_uint p)) as Hn.
  rewrite DecimalPos.Unsigned.of_to in Hn. cbn [N.to_uint] in Hn.
  pose proof (DecimalPos.Unsigned.to_uint_nonzero p) as Hz.
  destruct (Pos.to_uint p) as [|u|u|u|u|u|u|u|u|u|u];
    try match goal with
    | |- context [Decimal.app (?D ?u) w] =>
        assert (E : Decimal.app (D u) w = D (Decimal.app u w))
          by (apply DecimalFacts.to_list_inj; rewrite DecimalFacts.app_spec;
              cbn [DecimalFacts.to_list];
              rewrite DecimalFacts.app_spec; reflexivity);
        rewrite E; reflexivity
    end.
  - discriminate Hn.
  - exfalso. rewrite DecimalFacts.unorm_D0 in Hn. unfold Decimal.unorm in Hn.
    destruct (Decimal.nzhead u) eqn:Eh; try discriminate Hn.
    + injection Hn as Hn. subst u. apply Hz. reflexivity.
    + exact (DecimalFacts.nzhead_nonzero u _ Eh).
Qed.

Lemma rev_app_digit
  (u : Decimal.uint) (D : Decimal.uint -> Decimal.uint) (k : DecimalFacts.digits) :
  (forall v, DecimalFacts.to_list (D v) = k :: DecimalFacts.to_list v) ->
  Decimal.rev (Decimal.app u (D Decimal.Nil)) = D (Decimal.rev u).
Proof.
  intros HD. apply DecimalFacts.to_list_inj.
  rewrite DecimalFacts.rev_spec, DecimalFacts.app_spec, !HD, DecimalFacts.rev_spec.
  cbn [DecimalFacts.to_list].
  rewrite rev_unit. reflexivity.
Qed.

Lemma to_uint_snoc (p : positive) (d : N) :
  (d < 10)%N ->
  N.to_uint (10 * N.pos p + d)
  = Decimal.app (Pos.to_uint p) (N.to_uint d).
Proof.
  intros Hd.
  rewrite <- (to_uint_app_norm p (N.to_uint d)).
  rewrite <- DecimalN.Unsigned.to_of. f_equal.
  unfold N.of_uint. rewrite DecimalPos.Unsigned.of_uint_alt.
  pose proof (DecimalPos.Unsigned.of_to p) as Hp.
  rewrite DecimalPos.Unsigned.of_uint_alt in Hp.
  assert (Hc : (d = 0 \/ d = 1 \/ d = 2 \/ d = 3 \/ d = 4 \/ d = 5 \/ d = 6 \/
                d = 7 \/ d = 8 \/ d = 9)%N) by lia.
  repeat (destruct Hc as [Hc|Hc]); subst d;
    match goal with
    | |- context [Decimal.app _ (N.to_uint ?n)] =>
        let w := eval vm_compute in (N.to_uint n) in
        change (N.to_uint n) with w
    end;
    match goal with
    | |- context [Decimal.app _ (?D Decimal.Nil)] =>
        rewrite (rev_app_digit (Pos.to_uint p) D _ (fun v => eq_refl))
    end;
    cbn [DecimalPos.Unsigned.of_lu]; rewrite Hp; lia.
Qed.

Lemma digitsOf_snoc (q d : Z) :
  (0 < q)%Z -> (0 <= d < 10)%Z ->
  digitsOf (10 * q + d) = digitsOf q ++ digitsOf d.
Proof.
  intros Hq Hd. unfold digitsOf.
  replace (Z.to_N (10 * q + d)) with (10 * Z.to_N q + Z.to_N d)%N by lia.
  destruct (Z.to_N q) as [|p] eqn:Eq; [lia|].
  rewrite to_uint_snoc by lia.
  assert (Hw : N.to_uint (Z.to_N d) <> Decimal.Nil).
  { destruct (Z.to_N d); [discriminate|].
    apply DecimalPos.Unsigned.to_uint_nonnil. }
  assert (Hu : N.to_uint (N.pos p) <> Decimal.Nil)
    by apply DecimalPos.Unsigned.to_uint_nonnil.
  rewrite (string_of_uint_nonnil _ Hw), (string_of_uint_nonnil _ Hu).
  rewrite <- string_of_uint_app. apply string_of_uint_nonnil.
  cbn [N.to_uint]. intros E.
  apply (f_equal DecimalFacts.to_list) in E. rewrite DecimalFacts.app_spec in E.
  cbn [DecimalFacts.to_list] in E.
  apply app_eq_nil in E. destruct E as [_ E].
  apply Hw. apply DecimalFacts.to_list_inj. exact E.
Qed.

(** A number below ten has one digit. *)
Lemma digitsOf_digit (d : Z) :
  (0 <= d < 10)%Z -> exists c, digitsOf d = String c EmptyString.
Proof.
  intros Hd.
  assert (Hc : (d = 0 \/ d = 1 \/ d = 2 \/ d = 3 \/ d = 4 \/ d = 5 \/ d = 6 \/
                d = 7 \/ d = 8 \/ d = 9)%Z) by lia.
  repeat (destruct Hc as [Hc|Hc]); subst d; eexists; reflexivity.
Qed.

Lemma digitsOf_nonempty (z : Z) : exists c r, digitsOf z = String c r.
Proof.
  unfold digitsOf. destruct (Z.to_N z) as [|p]; [eexists; eexists; reflexivity|].
  pose proof (DecimalPos.Unsigned.to_uint_nonnil p) as Hn. cbn [N.to_uint].
  destruct (Pos.to_uint p); [contradiction | eexists; eexists; reflexivity ..].
Qed.

(** ** Substrings of a concatenation *)

Lemma substring_app_l (a b : string) :
  substring 0 (String.length a) (a ++ b) = a.
Proof.
  induction a as [|c a IH]; cbn [String.length append substring].
  - destruct b; reflexivity.
  - rewrite IH. reflexivity.
Qed.

Lemma substring_app_r (a b : string) (n : nat) :
  substring (String.length a) n (a ++ b) = substring 0 n b.
Proof.
  induction a as [|c a IH]; [reflexivity|].
  cbn [String.length append substring]. exact IH.
Qed.

(** ** toFixed(2) *)

(** The padded digits of [toFixed(2)], cut before the last two, are the
    whole part, the point and the two decimals. *)
Lemma padded_hundredths (n : Z) :
  (0 <= n)%Z ->
  (let m := digitsOf n in
   let m := zeros (3 - String.length m) ++ m in
   let k := String.length m in
   substring 0 (k - 2) m ++ "." ++ substring (k - 2) 2 m)
  = hundredths n.
Proof.
  intros Hn. cbv zeta. unfold hundredths.
  pose proof (Z.div_mod n 10 ltac:(lia)) as Hd.
  pose proof (Z.mod_pos_bound n 10 ltac:(lia)) as Hm.
  pose proof (Z.div_mod (n / 10) 10 ltac:(lia)) as Hd2.
  pose proof (Z.mod_pos_bound (n / 10) 10 ltac:(lia)) as Hm2.
  assert (Hdd : (n / 10 / 10 = n / 100)%Z)
    by (rewrite Z.div_div by lia; reflexivity).
  destruct (digitsOf_digit (n mod 10) Hm) as [c0 E0].
  destruct (digitsOf_digit ((n / 10) mod 10) Hm2) as [c1 E1].
  rewrite E0, E1.
  destruct (Z.ltb_spec n 10) as [H10|H10].
  { replace (n / 100)%Z with 0%Z by lia.
    replace (n mod 10)%Z with n in E0 by lia.
    assert (E1' : ((n / 10) mod 10 = 0)%Z) by lia. rewrite E1' in E1.
    injection E1 as <-. rewrite E0. reflexivity. }
  destruct (Z.ltb_spec n 100) as [H100|H100].
  { assert (En : digitsOf n = String c1 (String c0 "")).
    { rewrite Hd at 1. rewrite digitsOf_snoc by lia.
      replace (n / 10)%Z with ((n / 10) mod 10)%Z by lia.
      rewrite E0, E1. reflexivity. }
    replace (n / 100)%Z with 0%Z by lia.
    rewrite En. reflexivity. }
  destruct (digitsOf_nonempty (n / 100)) as (c & r & E).
  set (q := digitsOf (n / 100)) in *.
  assert (En : digitsOf n = q ++ String c1 (String c0 "")).
  { rewrite Hd at 1. rewrite digitsOf_snoc by lia.
    rewrite Hd2 at 1. rewrite digitsOf_snoc by lia.
    rewrite Hdd, E0, E1. fold q.
    clear. induction q as [|x q IH]; [reflexivity|].
    cbn [append]. rewrite IH. reflexivity. }
  rewrite En.
  assert (Hlen : String.length (q ++ String c1 (String c0 ""))
                 = (String.length q + 2)%nat).
  { clear. induction q as [|x q IH]; [reflexivity|].
    cbn [append String.length]. rewrite IH. reflexivity. }
  rewrite Hlen.
  assert (Hq : (1 <= String.length q)%nat)
    by (rewrite E; cbn [String.length]; lia).
  replace (3 - (String.length q + 2))%nat with 0%nat by lia.
  cbn [zeros append]. rewrite Hlen.
  replace (String.length q + 2 - 2)%nat with (String.length q) by lia.
  rewrite substring_app_l, substring_app_r. reflexivity.
Qed.

(** The magnitude of a finite Number is not below zero. *)
Lemma magnitude_nonneg (x : float) (a : Q) :
  magnitude x = Some a -> Qle (inject_Z 0) a.
Proof.
  unfold magnitude, exact. rewrite ltb_spec.
  change (Prim2SF 0) with (S754_zero false).
  destruct (Prim2SF x) as [s|s| |s m e]; try discriminate.
  - intros H. injection H as <-. cbn [SFltb SFcompare]. discriminate.
  - intros H. injection H as <-.
    assert (HA : Qle (inject_Z 0) (Qmult (inject_Z (Zpos m)) (pow2 e))).
    { apply Qmult_le_0_compat; [discriminate|].
      apply Qpower_0_le. discriminate. }
    cbv zeta.
    destruct s; cbn [SFltb SFcompare]; [|exact HA].
    rewrite Qopp_involutive. exact HA.
Qed.

Lemma toFixed2_amount (x : float) : toFixed2 x = amount x.
Proof.
  pose proof (magnitude_nonneg x) as Hpos.
  unfold toFixed2, amount, twoDecimals, minus. unfold magnitude in *.
  destruct (exact x) as [q|]; [|reflexivity].
  cbv zeta. specialize (Hpos _ eq_refl).
  change (x <? 0) with (ltb x zero) in *.
  set (a := if ltb x zero then Qopp q else q) in *.
  destruct (Qle_bool (pow10 21) a); [reflexivity|].
  f_equal. apply padded_hundredths.
  change 0%Z with (Qfloor (inject_Z 0)).
  apply Qfloor_resp_le.
  apply Qle_trans with (Qplus (Qmult (inject_Z 0) (inject_Z 100)) (1 # 2));
    [discriminate|].
  apply Qplus_le_compat; [|apply Qle_refl].
  apply Qmult_le_compat_r; [exact Hpos | discriminate].
Qed.

Lemma describedLine_amount (entry : string * Item.t) :
  describedLine amount entry = itemLine entry.
Proof.
  destruct entry as [product item]. unfold describedLine, itemLine.
  rewrite !toFixed2_amount. reflexivity.
Qed.

Lemma joinLines_described (l : Map.t) (rest : list string) :
  rest <> [] ->
  joinLines (List.map (describedLine amount) l ++ rest)
  = itemBlock l ++ joinLines rest.
Proof.
  intros Hrest.
  rewrite (map_ext _ _ describedLine_amount). apply joinLines_items, Hrest.
Qed.

(** C9 (as amended): [getSummary()] on an empty cart is the fixed message
    Cart is empty; on a non-empty cart it is the header line
    === CART SUMMARY ===, then one line per item in insertion order, a
    blank line, the subtotal line, the discount line when [getDiscount()]
    is above zero, the tax line, the separator and the total line, and
    nothing else.  Every amount is written as [toFixed(2)] writes it: with
    two decimals when its magnitude is below 1e21, in the string form of
    the Number from 1e21 on, and as NaN, Infinity or -Infinity when it is
    not finite.  The function reads the instance and returns a string. *)
Theorem getSummary_as_described (this : ShoppingCart) :
  getSummary this = describedSummary this.
Proof.
  unfold getSummary, describedSummary.
  destruct (Nat.eqb (getItemCount this) 0); [reflexivity|].
  unfold describedLines.
  rewrite joinLines_cons
    by (destruct (items this); destruct (0 <? getDiscount this); discriminate).
  rewrite (joinLines_described (items this))
    by (destruct (0 <? getDiscount this); discriminate).
  replace (getCartItems this) with (getCartItems (mkCart (items this) 0)) by reflexivity.
  rewrite forEach_itemBlock. rewrite !toFixed2_amount.
  destruct (0 <? getDiscount this); cbn [List.app joinLines];
    rewrite !append_assoc; reflexivity.
Qed.

(** C9 (as stated) fails twice.  The summary of a cart with one line
    starts with a header line the description leaves out; without that
    line it is the text described.  And a price of 1e21 is written 1e+21
    and a total of about 1.1e21 is written 1.0999999999999999e+21, both
    without two decimals, so that summary is not the text described even
    behind its header. *)
Lemma getSummary_not_as_claimed :
  getSummary oneLine =
    "=== CART SUMMARY ===" ++ nl ++
    "Pen: $2.50 x 2 = $5.00" ++ nl ++
    nl ++
    "Subtotal: $5.00" ++ nl ++
    "Tax (10%): $0.50" ++ nl ++
    "==================" ++ nl ++
    "TOTAL: $5.50" /\
  claimedSummary oneLine =
    "Pen: $2.50 x 2 = $5.00" ++ nl ++
    nl ++
    "Subtotal: $5.00" ++ nl ++
    "Tax (10%): $0.50" ++ nl ++
    "==================" ++ nl ++
    "TOTAL: $5.50" /\
  String.eqb (getSummary oneLine) (claimedSummary oneLine) = false /\
  getSummary hugePrice =
    "=== CART SUMMARY ===" ++ nl ++
    "Bond: $1e+21 x 1 = $999999999999999868928.00" ++ nl ++
    nl ++
    "Subtotal: $999999999999999868928.00" ++ nl ++
    "Tax (10%): $100000000000000000000.00" ++ nl ++
    "==================" ++ nl ++
    "TOTAL: $1.0999999999999999e+21" /\
  claimedSummary hugePrice =
    "Bond: $1000000000000000000000.00 x 1 = $999999999999999868928.00" ++ nl ++
    nl ++
    "Subtotal: $999999999999999868928.00" ++ nl ++
    "Tax (10%): $100000000000000000000.00" ++ nl ++
    "==================" ++ nl ++
    "TOTAL: $1099999999999999868928.00" /\
  String.eqb (getSummary hugePrice)
             ("=== CART SUMMARY ===" ++ nl ++ claimedSummary hugePrice) = false.
Proof. vm_compute. repeat split; reflexivity. Qed.

(* ===================================================================== *)
(** * Outcomes of the four fallible methods                               *)
(* ===================================================================== *)

(** [#validateInputs] answers true with nothing written, or false with
    one line written. *)
Lemma validateInputs_shape (product price quantity : value) :
  validateInputs product price quantity = (true, []) \/
  exists line, validateInputs product price quantity = (false, [line]).
Proof.
  unfold validateInputs.
  destruct (negb (ToBoolean product) || _); [right; eauto|].
  destruct (negb (String.eqb (typeof price) "number") || ltZero price);
    [right; eauto|].
  destruct (negb (Number_isInteger quantity) || leZero quantity);
    [right; eauto | left; reflexivity].
Qed.

(** The three results of [addItem]: refused with one line written, the
    quantity of a present product raised, or a new entry appended. *)
Lemma addItem_outcome (product price quantity : value) (this : ShoppingCart) :
  (exists line, addItem product price quantity this = mkOutcome false this [line]) \/
  (exists p x q,
      product = Str p /\ p <> EmptyString /\ price = Number x /\
      Map.has p (items this) = true /\
      addItem product price quantity this =
      mkOutcome true
        (mkCart (Map.update p
                   (fun it => Item.make (Item.price it) (Item.quantity it + q))
                   (items this))
                (appliedDiscount this)) []) \/
  (exists p x q,
      product = Str p /\ p <> EmptyString /\ price = Number x /\
      Map.has p (items this) = false /\
      addItem product price quantity this =
      mkOutcome true
        (mkCart (items this ++ [(p, Item.make (parseFloat x) (parseInt q))])%list
                (appliedDiscount this)) []).
Proof.
  unfold addItem.
  destruct (validateInputs_shape product price
              (match quantity with Undefined => Number 1 | _ => quantity end))
    as [Hv|[line Hv]]; rewrite Hv; simpl.
  - destruct (validateInputs_accepts _ _ _ _ Hv)
      as (p & x & q & -> & Hp & -> & _ & Hq & _).
    rewrite Hq.
    destruct (Map.has p (items this)) eqn:Hhas.
    + right; left. exists p, x, q. repeat split; assumption.
    + right; right. exists p, x, q. rewrite (set_absent _ _ _ Hhas).
      repeat split; assumption.
  - left. exists line. reflexivity.
Qed.

(** The two results of [removeItem]. *)
Lemma removeItem_outcome (product : value) (this : ShoppingCart) :
  (exists line, removeItem product this = mkOutcome false this [line]) \/
  (exists p,
      product = Str p /\ p <> EmptyString /\ Map.has p (items this) = true /\
      removeItem product this =
      mkOutcome true (mkCart (Map.delete p (items this)) (appliedDiscount this)) []).
Proof.
  unfold removeItem.
  destruct (negb (ToBoolean product) || _) eqn:Hg; [left; eauto|].
  destruct (product_guard _ Hg) as (p & -> & Hp).
  destruct (Map.has p (items this)) eqn:Hhas; simpl.
  - right. exists p. repeat split; assumption.
  - left. eauto.
Qed.

(** The two results of [updateQuantity]. *)
Lemma updateQuantity_outcome (product quantity : value) (this : ShoppingCart) :
  (exists line, updateQuantity product quantity this = mkOutcome false this [line]) \/
  (exists p q,
      product = Str p /\ p <> EmptyString /\ quantity = Number q /\
      Map.has p (items this) = true /\
      updateQuantity product quantity this =
      mkOutcome true
        (mkCart (Map.update p (fun item => Item.make (Item.price item) q) (items this))
                (appliedDiscount this)) []).
Proof.
  unfold updateQuantity.
  destruct (negb (ToBoolean product) || _) eqn:Hg; [left; eauto|].
  destruct (product_guard _ Hg) as (p & -> & Hp).
  destruct (Map.has p (items this)) eqn:Hhas; simpl; [|left; eauto].
  destruct (negb (Number_isInteger quantity) || leZero quantity); [left; eauto|].
  destruct quantity as [| |b|q|s|z| | |]; try solve [left; eauto].
  right. exists p, q. repeat split; assumption.
Qed.

(** The two results of [applyDiscount]. *)
Lemma applyDiscount_outcome (code : value) (this : ShoppingCart) :
  (percentageOf code = None /\
   exists line, applyDiscount code this = mkOutcome false this [line]) \/
  (exists percentage,
      percentageOf code = Some percentage /\
      applyDiscount code this =
      mkOutcome true (mkCart (items this) (getSubtotal this * percentage)) []).
Proof.
  unfold applyDiscount.
  destruct (negb (ToBoolean code) || _) eqn:Hg.
  - left. split; [|eauto].
    destruct code as [| |b|x|c|z| | |]; try reflexivity.
    destruct c; [reflexivity | discriminate Hg].
  - destruct (product_guard _ Hg) as (c & -> & Hc).
    change (percentageOf (Str c))
      with (ownProperty (trim (toUpperCase c)) DISCOUNT_CODES).
    cbv beta iota.
    destruct (ownProperty (trim (toUpperCase c)) DISCOUNT_CODES) as [percentage|].
    + right. exists percentage. split; reflexivity.
    + left. split; [reflexivity|]. eexists. reflexivity.
Qed.

(** The percentages of the table. *)
Lemma percentageOf_values (code : value) (percentage : float) :
  percentageOf code = Some percentage -> percentage = 0.10 \/ percentage = 0.20.
Proof.
  destruct code as [| |b|x|c|z| | |]; try discriminate.
  unfold percentageOf. rewrite ownProperty_codes.
  destruct (String.eqb "SAVE10" _); [intros [= <-]; left; reflexivity|].
  destruct (String.eqb "SAVE20" _); [intros [= <-]; right; reflexivity|discriminate].
Qed.

(** X1: a call of [addItem], [removeItem], [updateQuantity] or
    [applyDiscount] that returns false has changed neither the items nor
    the discount, whatever the arguments. *)
Theorem refused_call_changes_nothing (this : ShoppingCart) :
  (forall product price quantity,
      returned (addItem product price quantity this) = false ->
      this' (addItem product price quantity this) = this) /\
  (forall product,
      returned (removeItem product this) = false ->
      this' (removeItem product this) = this) /\
  (forall product quantity,
      returned (updateQuantity product quantity this) = false ->
      this' (updateQuantity product quantity this) = this) /\
  (forall code,
      returned (applyDiscount code this) = false ->
      this' (applyDiscount code this) = this).
Proof.
  repeat apply conj.
  - intros product price quantity.
    destruct (addItem_outcome product price quantity this)
      as [[line ->]|[(p & x & q & _ & _ & _ & _ & ->)|(p & x & q & _ & _ & _ & _ & ->)]];
      simpl; [reflexivity | discriminate | discriminate].
  - intros product.
    destruct (removeItem_outcome product this) as [[line ->]|(p & _ & _ & _ & ->)];
      simpl; [reflexivity | discriminate].
  - intros product quantity.
    destruct (updateQuantity_outcome product quantity this)
      as [[line ->]|(p & q & _ & _ & _ & _ & ->)];
      simpl; [reflexivity | discriminate].
  - intros code.
    destruct (applyDiscount_outcome code this) as [[_ [line ->]]|(pc & _ & ->)];
      simpl; [reflexivity | discriminate].
Qed.

Lemma refused_call_changes_nothing_witness :
  this' (addItem (Str "Ink") (Number 4) (Number 0.5) twoLines) = twoLines /\
  this' (removeItem (Str "Cap") twoLines) = twoLines /\
  this' (updateQuantity (Str "Ink") (Number (-1)) twoLines) = twoLines /\
  this' (applyDiscount (Str "SAVE30") twoLines) = twoLines.
Proof.
  pose proof (refused_call_changes_nothing twoLines) as [Ha [Hr [Hu Hd]]].
  exact (conj (Ha (Str "Ink") (Number 4) (Number 0.5) eq_refl)
        (conj (Hr (Str "Cap") eq_refl)
        (conj (Hu (Str "Ink") (Number (-1)) eq_refl)
              (Hd (Str "SAVE30") eq_refl)))).
Defined.

(** X2: each of the four methods writes nothing with [console.error] when
    it returns true and exactly one line when it returns false. *)
Theorem one_error_line_per_refusal (this : ShoppingCart) :
  (forall product price quantity,
      let r := addItem product price quantity this in
      (returned r = true /\ console r = []) \/
      (returned r = false /\ exists line, console r = [line])) /\
  (forall product,
      let r := removeItem product this in
      (returned r = true /\ console r = []) \/
      (returned r = false /\ exists line, console r = [line])) /\
  (forall product quantity,
      let r := updateQuantity product quantity this in
      (returned r = true /\ console r = []) \/
      (returned r = false /\ exists line, console r = [line])) /\
  (forall code,
      let r := applyDiscount code this in
      (returned r = true /\ console r = []) \/
      (returned r = false /\ exists line, console r = [line])).
Proof.
  repeat apply conj.
  - intros product price quantity r. subst r.
    destruct (addItem_outcome product price quantity this)
      as [[line ->]|[(p & x & q & _ & _ & _ & _ & ->)|(p & x & q & _ & _ & _ & _ & ->)]];
      simpl; [right; eauto | left; split; reflexivity | left; split; reflexivity].
  - intros product r. subst r.
    destruct (removeItem_outcome product this) as [[line ->]|(p & _ & _ & _ & ->)];
      simpl; [right; eauto | left; split; reflexivity].
  - intros product quantity r. subst r.
    destruct (updateQuantity_outcome product quantity this)
      as [[line ->]|(p & q & _ & _ & _ & _ & ->)];
      simpl; [right; eauto | left; split; reflexivity].
  - intros code r. subst r.
    destruct (applyDiscount_outcome code this) as [[_ [line ->]]|(pc & _ & ->)];
      simpl; [right; eauto | left; split; reflexivity].
Qed.

(* ===================================================================== *)
(** * More on the Map                                                     *)
(* ===================================================================== *)

Lemma get_delete_other (k k' : string) (m : Map.t) :
  k' <> k -> Map.get k' (Map.delete k m) = Map.get k' m.
Proof.
  intros Hne. induction m as [|[k0 v] r IH]; simpl; [reflexivity|].
  destruct (String.eqb_spec k0 k) as [->|Hk]; simpl.
  - destruct (String.eqb_spec k k') as [E|_]; [congruence | reflexivity].
  - rewrite IH. reflexivity.
Qed.

Lemma size_delete (k : string) (m : Map.t) :
  Map.has k m = true -> S (Map.size (Map.delete k m)) = Map.size m.
Proof.
  unfold Map.has, Map.size. induction m as [|[k0 v] r IH]; simpl; [discriminate|].
  destruct (String.eqb k0 k); simpl; [reflexivity|].
  intros H. rewrite (IH H). reflexivity.
Qed.

Lemma filter_absent (k : string) (l : list string) :
  ~ In k l -> filter (fun x => negb (String.eqb x k)) l = l.
Proof.
  induction l as [|x l IH]; simpl; [reflexivity|].
  intros H. destruct (String.eqb_spec x k) as [->|_]; simpl.
  - contradiction H. left; reflexivity.
  - rewrite IH; [reflexivity|]. intros Hin. apply H. right; exact Hin.
Qed.

(** Deleting a product of a Map leaves the others in their order. *)
Lemma keys_delete (k : string) (m : Map.t) :
  NoDup (List.map fst m) ->
  List.map fst (Map.delete k m)
  = filter (fun x => negb (String.eqb x k)) (List.map fst m).
Proof.
  induction m as [|[k0 v] r IH]; simpl; [reflexivity|].
  intros H. inversion H as [|? ? Hnotin Hrest]; subst.
  destruct (String.eqb_spec k0 k) as [->|_]; simpl.
  - symmetry. apply filter_absent. exact Hnotin.
  - rewrite (IH Hrest). reflexivity.
Qed.

Lemma delete_app_absent (k : string) (v : Item.t) (m : Map.t) :
  Map.has k m = false -> Map.delete k (m ++ [(k, v)])%list = m.
Proof.
  unfold Map.has. induction m as [|[k0 v0] r IH]; simpl.
  - rewrite String.eqb_refl. reflexivity.
  - destruct (String.eqb k0 k); [discriminate|].
    intros H. rewrite (IH H). reflexivity.
Qed.

Lemma has_app_new (k : string) (v : Item.t) (m : Map.t) :
  Map.has k (m ++ [(k, v)])%list = true.
Proof.
  unfold Map.has. induction m as [|[k0 v0] r IH]; simpl.
  - rewrite String.eqb_refl. reflexivity.
  - destruct (String.eqb k0 k); [reflexivity | exact IH].
Qed.

Lemma update_update (k : string) (f g : Item.t -> Item.t) (m : Map.t) :
  Map.update k g (Map.update k f m) = Map.update k (fun v => g (f v)) m.
Proof.
  induction m as [|[k0 v] r IH]; simpl; [reflexivity|].
  destruct (String.eqb k0 k) eqn:E; simpl; rewrite E;
    [reflexivity | rewrite IH; reflexivity].
Qed.

Lemma update_ext (k : string) (f g : Item.t -> Item.t) (m : Map.t) :
  (forall v, f v = g v) -> Map.update k f m = Map.update k g m.
Proof.
  intros H. induction m as [|[k0 v] r IH]; simpl; [reflexivity|].
  destruct (String.eqb k0 k); [rewrite H | rewrite IH]; reflexivity.
Qed.

Lemma has_update (k k' : string) (f : Item.t -> Item.t) (m : Map.t) :
  Map.has k' (Map.update k f m) = Map.has k' m.
Proof.
  unfold Map.has. destruct (String.eqb_spec k' k) as [->|Hne].
  - rewrite get_update_same. destruct (Map.get k m); reflexivity.
  - rewrite (get_update_other k k' f m Hne). reflexivity.
Qed.

Lemma cart_eta (this : ShoppingCart) :
  mkCart (items this) (appliedDiscount this) = this.
Proof. destruct this; reflexivity. Qed.

(** [getCartItems] lists the products of the Map in its order. *)
Lemma products_getCartItems (this : ShoppingCart) :
  List.map Entry.product (getCartItems this) = List.map fst (items this).
Proof.
  unfold getCartItems, Map.entries. rewrite map_map.
  apply map_ext. intros [product details]. reflexivity.
Qed.

(* ===================================================================== *)
(** * Every cart a program can build                                      *)
(* ===================================================================== *)

Lemma wellFormed_perform (m : method) (this : ShoppingCart) :
  wellFormed this -> wellFormed (perform m this).
Proof.
  destruct m as [[product price quantity|product|product quantity]|code|]; simpl.
  - apply wellFormed_addItem.
  - apply wellFormed_removeItem.
  - apply wellFormed_updateQuantity.
  - apply wellFormed_applyDiscount.
  - intros _. apply wellFormed_clearCart.
Qed.

Lemma wellFormed_run (ms : list method) (this : ShoppingCart) :
  wellFormed this -> wellFormed (run ms this).
Proof.
  revert this. induction ms as [|m ms IH]; intros this H; simpl; [exact H|].
  apply IH. apply wellFormed_perform. exact H.
Qed.

Lemma wellFormed_oneLine : wellFormed oneLine.
Proof. apply wellFormed_addItem. apply wellFormed_constructor. Qed.

Lemma wellFormed_twoLines : wellFormed twoLines.
Proof.
  apply wellFormed_applyDiscount. apply wellFormed_addItem.
  apply wellFormed_oneLine.
Qed.

(** X3: whatever sequence of [addItem], [removeItem], [updateQuantity],
    [applyDiscount] and [clearCart] calls, with whatever arguments, is made
    on a new cart, [getCartItems()] then lists pairwise different products,
    none of them the empty string, and as many as [getItemCount()] says. *)
Theorem products_distinct_and_named (ms : list method) :
  NoDup (List.map Entry.product (getCartItems (run ms constructor))) /\
  Forall (fun product => product <> EmptyString)
         (List.map Entry.product (getCartItems (run ms constructor))) /\
  List.length (getCartItems (run ms constructor))
  = getItemCount (run ms constructor).
Proof.
  destruct (wellFormed_run ms constructor wellFormed_constructor) as [Hnd Hne].
  rewrite products_getCartItems. repeat split; try assumption.
  unfold getCartItems, getItemCount, Map.entries, Map.size.
  apply length_map.
Qed.

(* ===================================================================== *)
(** * removeItem on a product of the cart                                 *)
(* ===================================================================== *)

(** X4: on a cart with distinct non-empty products, [removeItem] of a
    product in the cart returns true and writes nothing; afterwards the
    product is gone, the count is one less, the other products keep their
    entries and their order, the discount is as before, and a second
    [removeItem] of the same product returns false. *)
Theorem removeItem_takes_product_out (this : ShoppingCart) (p : string) :
  wellFormed this ->
  Map.has p (items this) = true ->
  let r := removeItem (Str p) this in
  returned r = true /\ console r = [] /\
  Map.has p (items (this' r)) = false /\
  S (getItemCount (this' r)) = getItemCount this /\
  (forall p', p' <> p -> Map.get p' (items (this' r)) = Map.get p' (items this)) /\
  List.map fst (items (this' r))
  = filter (fun x => negb (String.eqb x p)) (List.map fst (items this)) /\
  appliedDiscount (this' r) = appliedDiscount this /\
  returned (removeItem (Str p) (this' r)) = false.
Proof.
  intros Hwf Hhas r. subst r.
  pose proof (wellFormed_product_nonempty this p Hwf Hhas) as Hp.
  rewrite (removeItem_present this p Hp Hhas). simpl.
  destruct Hwf as [Hnd _].
  assert (Hgone : Map.has p (Map.delete p (items this)) = false)
    by (apply has_delete; exact Hnd).
  repeat split.
  - exact Hgone.
  - apply size_delete. exact Hhas.
  - intros p' Hne. apply get_delete_other. exact Hne.
  - apply keys_delete. exact Hnd.
  - apply (removeItem_missing (Str p)). exact Hgone.
Qed.

Lemma removeItem_takes_product_out_witness :
  returned (removeItem (Str "Pen") twoLines) = true /\
  List.map fst (items (this' (removeItem (Str "Pen") twoLines))) = ["Ink"] /\
  returned (removeItem (Str "Pen") (this' (removeItem (Str "Pen") twoLines))) = false.
Proof.
  destruct (removeItem_takes_product_out twoLines "Pen" wellFormed_twoLines eq_refl)
    as (H1 & _ & _ & _ & _ & H6 & _ & H8).
  exact (conj H1 (conj H6 H8)).
Defined.

(** X5: a valid [addItem] of a product the cart does not hold, followed by
    [removeItem] of that product, gives back the cart as it was; both calls
    return true. *)
Theorem addItem_then_removeItem_restores
  (this : ShoppingCart) (p : string) (x q : float) :
  p <> EmptyString -> (x <? 0) = false ->
  Number_isInteger (Number q) = true -> (q <=? 0) = false ->
  Map.has p (items this) = false ->
  let added := addItem (Str p) (Number x) (Number q) this in
  let removed := removeItem (Str p) (this' added) in
  returned added = true /\ returned removed = true /\ this' removed = this.
Proof.
  intros Hp Hx Hi Hq Hhas added removed. subst removed added.
  rewrite (addItem_new this p x q Hp Hx Hi Hq Hhas). simpl this'.
  rewrite removeItem_present; [|exact Hp|apply has_app_new].
  simpl. rewrite (delete_app_absent _ _ _ Hhas), cart_eta.
  repeat split.
Qed.

Lemma addItem_then_removeItem_restores_witness :
  returned (addItem (Str "Cap") (Number 1.25) (Number 4) twoLines) = true /\
  returned (removeItem (Str "Cap")
              (this' (addItem (Str "Cap") (Number 1.25) (Number 4) twoLines))) = true /\
  this' (removeItem (Str "Cap")
           (this' (addItem (Str "Cap") (Number 1.25) (Number 4) twoLines))) = twoLines.
Proof.
  assert (Hne : "Cap" <> EmptyString) by discriminate.
  exact (addItem_then_removeItem_restores twoLines "Cap" 1.25 4 Hne
           eq_refl eq_refl eq_refl eq_refl).
Defined.

(* ===================================================================== *)
(** * What a line-item call leaves alone                                  *)
(* ===================================================================== *)

(** X6: a call of [addItem], [removeItem] or [updateQuantity], valid or
    not, leaves the entry of every product other than its own as it was. *)
Theorem item_call_leaves_other_products
  (c : itemCall) (this : ShoppingCart) (p' : string) :
  target c <> Str p' ->
  Map.get p' (items (this' (call c this))) = Map.get p' (items this).
Proof.
  intros Hne. destruct c as [product price quantity|product|product quantity];
    simpl in *.
  - destruct (addItem_outcome product price quantity this)
      as [[line ->]|[(p & x & q & -> & _ & _ & _ & ->)|(p & x & q & -> & _ & _ & _ & ->)]];
      simpl; [reflexivity| |].
    + apply get_update_other. congruence.
    + apply get_app_other. congruence.
  - destruct (removeItem_outcome product this) as [[line ->]|(p & -> & _ & _ & ->)];
      simpl; [reflexivity|].
    apply get_delete_other. congruence.
  - destruct (updateQuantity_outcome product quantity this)
      as [[line ->]|(p & q & -> & _ & _ & _ & ->)]; simpl; [reflexivity|].
    apply get_update_other. congruence.
Qed.

Lemma item_call_leaves_other_products_witness :
  Map.get "Pen" (items (this' (call (RemoveItem (Str "Ink")) twoLines)))
  = Map.get "Pen" (items twoLines) /\
  Map.get "Pen" (items (this' (call (AddItem (Str "Ink") (Number 9) (Number 2)) twoLines)))
  = Map.get "Pen" (items twoLines).
Proof.
  assert (Hne : Str "Ink" <> Str "Pen") by discriminate.
  exact (conj (item_call_leaves_other_products (RemoveItem (Str "Ink")) twoLines "Pen" Hne)
              (item_call_leaves_other_products
                 (AddItem (Str "Ink") (Number 9) (Number 2)) twoLines "Pen" Hne)).
Defined.

(** X8: [addItem] never reorders: the products are listed as before, with
    the new product, if the call added one, after them. *)
Theorem addItem_keeps_order
  (product price quantity : value) (this : ShoppingCart) :
  List.map fst (items (this' (addItem product price quantity this)))
  = List.map fst (items this) \/
  exists p,
    product = Str p /\ Map.has p (items this) = false /\
    List.map fst (items (this' (addItem product price quantity this)))
    = (List.map fst (items this) ++ [p])%list.
Proof.
  destruct (addItem_outcome product price quantity this)
    as [[line ->]|[(p & x & q & -> & _ & _ & _ & ->)|(p & x & q & -> & _ & _ & Hhas & ->)]];
    simpl.
  - left. reflexivity.
  - left. apply keys_update.
  - right. exists p. rewrite map_app. repeat split. exact Hhas.
Qed.

(** An instance of [addItem_valid] on a present and on a new product. *)
Lemma addItem_valid_witness :
  returned (addItem (Str "Pen") (Number 9) (Number 3) twoLines) = true /\
  Map.get "Pen" (items (this' (addItem (Str "Pen") (Number 9) (Number 3) twoLines)))
  = Some (Item.make 2.5 (2 + 3)) /\
  getItemCount (this' (addItem (Str "Cap") (Number 1.25) (Number 4) twoLines)) = 3%nat.
Proof.
  assert (Hpen : "Pen" <> EmptyString) by discriminate.
  assert (Hcap : "Cap" <> EmptyString) by discriminate.
  destruct (addItem_valid twoLines "Pen" 9 3 Hpen eq_refl eq_refl eq_refl)
    as (H1 & H2 & _).
  destruct (addItem_valid twoLines "Cap" 1.25 4 Hcap eq_refl eq_refl eq_refl)
    as (_ & _ & H3).
  exact (conj H1 (conj (proj1 (H2 (Item.make 2.5 2) eq_refl)) (proj2 (H3 eq_refl)))).
Defined.

(* ===================================================================== *)
(** * applyDiscount and the items                                         *)
(* ===================================================================== *)

Lemma applyDiscount_items (code : value) (this : ShoppingCart) :
  items (this' (applyDiscount code this)) = items this.
Proof.
  destruct (applyDiscount_outcome code this) as [[_ [line ->]]|(pc & _ & ->)];
    reflexivity.
Qed.

(** X9: [applyDiscount], with any argument, leaves the line items as they
    are: [getCartItems()], [getItemCount()] and [getSubtotal()] answer the
    same before and after. *)
Theorem applyDiscount_keeps_items (code : value) (this : ShoppingCart) :
  items (this' (applyDiscount code this)) = items this /\
  getCartItems (this' (applyDiscount code this)) = getCartItems this /\
  getItemCount (this' (applyDiscount code this)) = getItemCount this /\
  getSubtotal (this' (applyDiscount code this)) = getSubtotal this.
Proof.
  pose proof (applyDiscount_items code this) as H.
  unfold getCartItems, getItemCount, getSubtotal. rewrite H.
  repeat split.
Qed.

(** X10: of two [applyDiscount] calls in a row the second decides: whether
    it succeeds does not depend on the first, on success the cart is the
    one the second call alone would give, and on failure the cart is the
    one the first call left. *)
Theorem applyDiscount_last_code_wins (first second : value) (this : ShoppingCart) :
  let between := this' (applyDiscount first this) in
  returned (applyDiscount second between) = returned (applyDiscount second this) /\
  (returned (applyDiscount second this) = true ->
   this' (applyDiscount second between) = this' (applyDiscount second this)) /\
  (returned (applyDiscount second this) = false ->
   this' (applyDiscount second between) = between).
Proof.
  intros between.
  assert (Hitems : items between = items this) by apply applyDiscount_items.
  assert (Hsub : getSubtotal between = getSubtotal this)
    by (unfold getSubtotal; rewrite Hitems; reflexivity).
  destruct (applyDiscount_outcome second this) as [[N [l E]]|(pc & P & E)];
    destruct (applyDiscount_outcome second between) as [[N' [l' E']]|(pc' & P' & E')];
    rewrite E, E'; simpl; try congruence.
  - split; [reflexivity|]. split; intros H; [discriminate H | reflexivity].
  - assert (pc' = pc) by congruence. subst pc'.
    rewrite Hitems, Hsub.
    split; [reflexivity|]. split; intros H; [reflexivity | discriminate H].
Qed.

Lemma applyDiscount_last_code_wins_witness :
  this' (applyDiscount (Str "save20") (this' (applyDiscount (Str "SAVE10") oneLine)))
  = this' (applyDiscount (Str "save20") oneLine) /\
  this' (applyDiscount (Str "SAVE5") (this' (applyDiscount (Str "SAVE10") oneLine)))
  = this' (applyDiscount (Str "SAVE10") oneLine).
Proof.
  exact (conj
    (proj1 (proj2 (applyDiscount_last_code_wins (Str "SAVE10") (Str "save20") oneLine))
           eq_refl)
    (proj2 (proj2 (applyDiscount_last_code_wins (Str "SAVE10") (Str "SAVE5") oneLine))
           eq_refl)).
Defined.

(* ===================================================================== *)
(** * The line addItem writes                                             *)
(* ===================================================================== *)

Lemma valid_product_string (product : value) :
  ~ invalidProduct product -> exists p, product = Str p /\ p <> EmptyString.
Proof.
  destruct product as [| |b|x|s|z| | |]; simpl; intros H;
    try (contradiction H; exact I).
  exists s. split; [reflexivity | exact H].
Qed.

Lemma price_guard_invalid (price : value) :
  invalidPrice price ->
  negb (String.eqb (typeof price) "number") || ltZero price = true.
Proof.
  destruct price as [| |b|x|s|z| | |]; simpl; intros H; try reflexivity.
  exact H.
Qed.

Lemma valid_price_number (price : value) :
  ~ invalidPrice price -> exists x, price = Number x /\ (x <? 0) = false.
Proof.
  destruct price as [| |b|x|s|z| | |]; simpl; intros H;
    try (contradiction H; exact I).
  exists x. split; [reflexivity|]. destruct (x <? 0); [contradiction H|]; reflexivity.
Qed.

Lemma quantity_guard_invalid (quantity : value) :
  notPositiveInteger quantity ->
  negb (Number_isInteger quantity) || leZero quantity = true.
Proof.
  destruct quantity as [| |b|x|s|z| | |]; try reflexivity.
  intros [H|H]; simpl; rewrite H; [reflexivity | apply orb_true_r].
Qed.

(** The line [#validateInputs] writes is that of the first check that
    fails. *)
Lemma validateInputs_line (product price quantity : value) :
  (invalidProduct product ->
   validateInputs product price quantity = (false, ["Invalid product name"])) /\
  (~ invalidProduct product -> invalidPrice price ->
   validateInputs product price quantity
   = (false, ["Price must be a non-negative number"])) /\
  (~ invalidProduct product -> ~ invalidPrice price ->
   notPositiveInteger quantity ->
   validateInputs product price quantity
   = (false, ["Quantity must be a positive integer"])).
Proof.
  unfold validateInputs. split; [|split].
  - intros H. rewrite (product_guard_invalid product H). reflexivity.
  - intros Hp Hx. destruct (valid_product_string product Hp) as (p & -> & Hne).
    rewrite (product_guard_string p Hne), (price_guard_invalid price Hx).
    reflexivity.
  - intros Hp Hx Hq. destruct (valid_product_string product Hp) as (p & -> & Hne).
    destruct (valid_price_number price Hx) as (x & -> & Hx0).
    rewrite (product_guard_string p Hne), (quantity_guard_invalid quantity Hq).
    simpl. rewrite Hx0. reflexivity.
Qed.

Lemma addItem_refused_console
  (product price quantity : value) (this : ShoppingCart) (log : list string) :
  validateInputs product price
    (match quantity with Undefined => Number 1 | _ => quantity end) = (false, log) ->
  console (addItem product price quantity this) = log.
Proof. intros H. unfold addItem. rewrite H. reflexivity. Qed.

Lemma invalidQuantity_effective (quantity : value) :
  invalidQuantity quantity ->
  notPositiveInteger (match quantity with Undefined => Number 1 | _ => quantity end).
Proof. destruct quantity; simpl; intros H; try exact H; contradiction H. Qed.

(** X18: [addItem] checks the product first, then the price, then the
    quantity, and writes the line of the first check that fails. *)
Theorem addItem_first_failed_check
  (product price quantity : value) (this : ShoppingCart) :
  (invalidProduct product ->
   console (addItem product price quantity this) = ["Invalid product name"]) /\
  (~ invalidProduct product -> invalidPrice price ->
   console (addItem product price quantity this)
   = ["Price must be a non-negative number"]) /\
  (~ invalidProduct product -> ~ invalidPrice price -> invalidQuantity quantity ->
   console (addItem product price quantity this)
   = ["Quantity must be a positive integer"]).
Proof.
  destruct (validateInputs_line product price
              (match quantity with Undefined => Number 1 | _ => quantity end))
    as (H1 & H2 & H3).
  split; [|split].
  - intros H. apply addItem_refused_console. exact (H1 H).
  - intros Hp Hx. apply addItem_refused_console. exact (H2 Hp Hx).
  - intros Hp Hx Hq. apply addItem_refused_console.
    exact (H3 Hp Hx (invalidQuantity_effective quantity Hq)).
Qed.

Lemma addItem_first_failed_check_witness :
  console (addItem (Str "") (Number (-1)) (Number 0) twoLines)
  = ["Invalid product name"] /\
  console (addItem (Str "Cap") (Number (-1)) (Number 0) twoLines)
  = ["Price must be a non-negative number"] /\
  console (addItem (Str "Cap") (Number 1) (Number 0) twoLines)
  = ["Quantity must be a positive integer"].
Proof.
  assert (Hp : ~ invalidProduct (Str "Cap")) by discriminate.
  assert (Hx : ~ invalidPrice (Number 1)) by discriminate.
  exact (conj
    (proj1 (addItem_first_failed_check (Str "") (Number (-1)) (Number 0) twoLines)
           eq_refl)
    (conj
    (proj1 (proj2 (addItem_first_failed_check (Str "Cap") (Number (-1)) (Number 0)
                     twoLines)) Hp eq_refl)
    (proj2 (proj2 (addItem_first_failed_check (Str "Cap") (Number 1) (Number 0)
                     twoLines)) Hp Hx (or_intror eq_refl)))).
Defined.

(* ===================================================================== *)
(** * updateQuantity                                                      *)
(* ===================================================================== *)

(** X11: of two valid [updateQuantity] calls on the same product the
    second decides: the cart is the one the second call alone would give. *)
Theorem updateQuantity_last_write_wins
  (this : ShoppingCart) (p : string) (q1 q2 : float) :
  p <> EmptyString -> Map.has p (items this) = true ->
  Number_isInteger (Number q1) = true -> (0 <? q1) = true ->
  Number_isInteger (Number q2) = true -> (0 <? q2) = true ->
  this' (updateQuantity (Str p) (Number q2)
           (this' (updateQuantity (Str p) (Number q1) this)))
  = this' (updateQuantity (Str p) (Number q2) this).
Proof.
  intros Hp Hhas Hi1 Hq1 Hi2 Hq2.
  rewrite (updateQuantity_present this p q1 Hp Hhas Hi1 Hq1). simpl this'.
  rewrite updateQuantity_present;
    [|exact Hp|simpl; rewrite has_update; exact Hhas|exact Hi2|exact Hq2].
  rewrite (updateQuantity_present this p q2 Hp Hhas Hi2 Hq2). simpl.
  rewrite update_update. reflexivity.
Qed.

Lemma updateQuantity_last_write_wins_witness :
  this' (updateQuantity (Str "Ink") (Number 8)
           (this' (updateQuantity (Str "Ink") (Number 5) twoLines)))
  = this' (updateQuantity (Str "Ink") (Number 8) twoLines).
Proof.
  assert (Hne : "Ink" <> EmptyString) by discriminate.
  exact (updateQuantity_last_write_wins twoLines "Ink" 5 8 Hne
           eq_refl eq_refl eq_refl eq_refl eq_refl).
Defined.

(** X17: [updateQuantity] called with a quantity that is not an integral
    Number above zero returns false and changes nothing, whatever the
    product; when the product is in the cart the line written says so. *)
Theorem updateQuantity_refuses_quantity
  (product quantity : value) (this : ShoppingCart) :
  notPositiveInteger quantity ->
  returned (updateQuantity product quantity this) = false /\
  this' (updateQuantity product quantity this) = this /\
  (forall p, product = Str p -> p <> EmptyString ->
             Map.has p (items this) = true ->
             console (updateQuantity product quantity this)
             = ["Quantity must be a positive integer"]).
Proof.
  intros Hq.
  pose proof (quantity_guard_invalid quantity Hq) as Hbad.
  destruct (updateQuantity_outcome product quantity this)
    as [[line E]|(p & q & -> & Hp & -> & Hhas & E)].
  - rewrite E. simpl. repeat split.
    intros p -> Hp Hhas. revert E. unfold updateQuantity.
    rewrite (product_guard_string p Hp), Hhas, Hbad. simpl. congruence.
  - exfalso. revert E. unfold updateQuantity.
    rewrite (product_guard_string p Hp), Hhas, Hbad. simpl. discriminate.
Qed.

Lemma updateQuantity_refuses_quantity_witness :
  returned (updateQuantity (Str "Ink") (Number 2.5) twoLines) = false /\
  this' (updateQuantity (Str "Ink") (Number 2.5) twoLines) = twoLines /\
  console (updateQuantity (Str "Ink") (Number 2.5) twoLines)
  = ["Quantity must be a positive integer"].
Proof.
  assert (Hne : "Ink" <> EmptyString) by discriminate.
  destruct (updateQuantity_refuses_quantity (Str "Ink") (Number 2.5) twoLines
              (or_introl eq_refl)) as (H1 & H2 & H3).
  exact (conj H1 (conj H2 (H3 "Ink" eq_refl Hne eq_refl))).
Defined.

(* ===================================================================== *)
(** * The cart without items                                              *)
(* ===================================================================== *)

(** X12: on a cart without items, whatever discount is stored, the
    subtotal is 0 and the summary is the empty-cart message; an
    [applyDiscount] that succeeds there stores a discount of 0, after which
    tax and total are 0 as well. *)
Theorem empty_cart_figures (this : ShoppingCart) :
  items this = [] ->
  getSubtotal this = 0 /\
  getCartItems this = [] /\
  getSummary this = "Cart is empty" /\
  (forall code,
      returned (applyDiscount code this) = true ->
      appliedDiscount (this' (applyDiscount code this)) = 0 /\
      getDiscount (this' (applyDiscount code this)) = 0 /\
      getTax (this' (applyDiscount code this)) = 0 /\
      getTotal (this' (applyDiscount code this)) = 0).
Proof.
  destruct this as [m d]. simpl. intros ->.
  repeat split; intros;
    destruct (applyDiscount_outcome code (mkCart [] d))
      as [[_ [line E]]|(pc & P & E)];
    rewrite E in *; simpl in *; try discriminate;
    destruct (percentageOf_values code pc P) as [-> | ->]; reflexivity.
Qed.

Lemma empty_cart_figures_witness :
  getTotal (this' emptiedStep3) = (-2.2) /\
  getSummary (this' emptiedStep3) = "Cart is empty" /\
  getTotal (this' (applyDiscount (Str "SAVE10") (this' emptiedStep3))) = 0.
Proof.
  destruct (empty_cart_figures (this' emptiedStep3) eq_refl) as (_ & _ & H3 & H4).
  exact (conj eq_refl
        (conj H3 (proj2 (proj2 (proj2 (H4 (Str "SAVE10") eq_refl)))))).
Defined.

(* ===================================================================== *)
(** * The empty-cart message                                              *)
(* ===================================================================== *)

(** The summary of a cart with items starts with the header. *)
Lemma getSummary_starts_with_header (this : ShoppingCart) :
  getItemCount this <> 0%nat ->
  exists rest, getSummary this = String "=" rest.
Proof.
  intros Hn. unfold getSummary.
  destruct (Nat.eqb_spec (getItemCount this) 0) as [E|_]; [contradiction|].
  replace (getCartItems this) with (getCartItems (mkCart (items this) 0))
    by reflexivity.
  rewrite forEach_itemBlock.
  destruct (0 <? getDiscount this); rewrite !append_assoc;
    eexists; reflexivity.
Qed.

(** X13: [getSummary()] returns the message Cart is empty exactly when the
    cart holds no product. *)
Theorem getSummary_empty_message (this : ShoppingCart) :
  getSummary this = "Cart is empty" <-> getItemCount this = 0%nat.
Proof.
  split.
  - intros H. destruct (Nat.eq_dec (getItemCount this) 0) as [E|Hn]; [exact E|].
    destruct (getSummary_starts_with_header this Hn) as [rest Hr].
    rewrite Hr in H. discriminate H.
  - intros H. unfold getSummary. rewrite H. reflexivity.
Qed.

(* ===================================================================== *)
(** * The order of Numbers                                                *)
(* ===================================================================== *)

Ltac compare_cases :=
  repeat match goal with
         | H : context [Z.compare ?a ?b] |- _ => destruct (Z.compare_spec a b); subst
         | H : context [Pos.compare ?a ?b] |- _ => destruct (Pos.compare_spec a b); subst
         | |- context [Z.compare ?a ?b] => destruct (Z.compare_spec a b); subst
         | |- context [Pos.compare ?a ?b] => destruct (Pos.compare_spec a b); subst
         end.

Lemma SFltb_chain (a x y : spec_float) :
  SFltb a y = true -> SFltb a x = false -> SFltb y x = false.
Proof.
  unfold SFltb, SFcompare.
  destruct a as [sa|sa| |sa ma ea], x as [sx|sx| |sx mx ex], y as [sy|sy| |sy my ey];
    try destruct sa; try destruct sx; try destruct sy;
    try congruence;
    change (Pos.compare_cont Eq) with Pos.compare;
    intros H1 H2; compare_cases; simpl in *; try congruence; try lia.
Qed.

(** If [y] is above [a] and [x] is not, then [x] is not above [y]; NaN is
    above nothing and below nothing. *)
Lemma ltb_chain (a x y : float) :
  (a <? y) = true -> (a <? x) = false -> (y <? x) = false.
Proof. rewrite !ltb_spec. apply SFltb_chain. Qed.

Lemma ltb_irrefl (x : float) : (x <? x) = false.
Proof.
  rewrite ltb_spec. unfold SFltb, SFcompare.
  destruct (Prim2SF x) as [s|s| |s m e]; try destruct s; try reflexivity;
    change (Pos.compare_cont Eq) with Pos.compare;
    rewrite Z.compare_refl, Pos.compare_refl; reflexivity.
Qed.

(* ===================================================================== *)
(** * analyzeCart                                                         *)
(* ===================================================================== *)

Section Greatest.
Context {A : Type} (key : A -> float).

Let keep (max item : A) : A := if key max <? key item then item else max.

Lemma fold_greatest (rest seen : list A) (acc : A) :
  In acc seen ->
  (forall x, In x seen -> (key acc <? key x) = false) ->
  In (fold_left keep rest acc) (seen ++ rest) /\
  (forall x, In x (seen ++ rest) -> (key (fold_left keep rest acc) <? key x) = false).
Proof.
  revert seen acc. induction rest as [|y rest IH]; intros seen acc Hin Hmax.
  - rewrite app_nil_r. split; assumption.
  - simpl fold_left.
    replace (seen ++ y :: rest)%list with ((seen ++ [y]) ++ rest)%list
      by (rewrite <- app_assoc; reflexivity).
    apply IH.
    + unfold keep. destruct (key acc <? key y);
        apply in_or_app; [right; left; reflexivity | left; exact Hin].
    + intros x Hx. apply in_app_or in Hx. unfold keep.
      destruct (key acc <? key y) eqn:E.
      * destruct Hx as [Hx|[<-|[]]]; [|apply ltb_irrefl].
        exact (ltb_chain (key acc) (key x) (key y) E (Hmax x Hx)).
      * destruct Hx as [Hx|[<-|[]]]; [exact (Hmax x Hx) | exact E].
Qed.

(** [reduce] with the keep-the-greater function: on a non-empty array the
    result is one of its elements and no element has a greater key. *)
Lemma reduce_greatest (array : list A) :
  array <> [] ->
  exists best,
    reduce keep array = Some best /\ In best array /\
    forall x, In x array -> (key best <? key x) = false.
Proof.
  destruct array as [|first rest]; [contradiction|]. intros _.
  exists (fold_left keep rest first). split; [reflexivity|].
  apply (fold_greatest rest [first] first).
  - left; reflexivity.
  - intros x [<-|[]]. apply ltb_irrefl.
Qed.
End Greatest.

Lemma getCartItems_nil (cart : ShoppingCart) :
  getItemCount cart = 0%nat -> getCartItems cart = [].
Proof.
  unfold getItemCount, getCartItems, Map.size, Map.entries.
  destruct (items cart); [reflexivity | discriminate].
Qed.

Lemma getCartItems_cons (cart : ShoppingCart) :
  getItemCount cart <> 0%nat -> getCartItems cart <> [].
Proof.
  unfold getItemCount, getCartItems, Map.size, Map.entries.
  destruct (items cart); [contradiction | discriminate].
Qed.

(** X14: [analyzeCart] on a cart without items writes its two opening
    lines and then throws a TypeError, the [reduce] of an empty array
    having no initial value; on a cart with items it returns, having
    written eight lines. *)
Theorem analyzeCart_needs_items (cart : ShoppingCart) :
  (getItemCount cart = 0%nat ->
   analyzeCart cart
   = ([nl ++ "🔍 CART ANALYSIS:"; nl ++ "├─ Total Items: 0"], Throws "TypeError")) /\
  (getItemCount cart <> 0%nat ->
   snd (analyzeCart cart) = Returns /\ List.length (fst (analyzeCart cart)) = 8%nat).
Proof.
  split.
  - intros H. unfold analyzeCart. rewrite (getCartItems_nil cart H), H. reflexivity.
  - intros H. unfold analyzeCart.
    pose proof (getCartItems_cons cart H) as Hne.
    destruct (reduce_greatest Entry.price _ Hne) as (best & Hb & _).
    destruct (reduce_greatest Entry.quantity _ Hne) as (most & Hm & _).
    unfold mostExpensive, highestQty. rewrite Hb, Hm.
    destruct (0 <? getDiscount cart); split; reflexivity.
Qed.

Lemma analyzeCart_needs_items_witness :
  analyzeCart (this' emptiedStep3)
  = ([nl ++ "🔍 CART ANALYSIS:"; nl ++ "├─ Total Items: 0"], Throws "TypeError") /\
  snd (analyzeCart twoLines) = Returns.
Proof.
  assert (Hne : getItemCount twoLines <> 0%nat) by discriminate.
  exact (conj (proj1 (analyzeCart_needs_items (this' emptiedStep3)) eq_refl)
              (proj1 (proj2 (analyzeCart_needs_items twoLines) Hne))).
Defined.

(** X15: on a cart with items, the product [analyzeCart] reports as most
    expensive is an item of the cart whose price no item's price exceeds,
    and the one it reports for the highest quantity is an item whose
    quantity no item's quantity exceeds. *)
Theorem analyzeCart_reports_greatest (cart : ShoppingCart) :
  getItemCount cart <> 0%nat ->
  exists best most,
    In best (getCartItems cart) /\
    (forall item, In item (getCartItems cart) ->
                  (Entry.price best <? Entry.price item) = false) /\
    In most (getCartItems cart) /\
    (forall item, In item (getCartItems cart) ->
                  (Entry.quantity most <? Entry.quantity item) = false) /\
    nth_error (fst (analyzeCart cart)) 2
    = Some ("├─ Most Expensive: " ++ Entry.product best ++ " ($"
              ++ toFixed 2 (Entry.price best) ++ ")") /\
    nth_error (fst (analyzeCart cart)) 3
    = Some ("├─ Highest Quantity: " ++ Entry.product most ++ " ("
              ++ Number_toString (Entry.quantity most) ++ " units)").
Proof.
  intros H. pose proof (getCartItems_cons cart H) as Hne.
  destruct (reduce_greatest Entry.price _ Hne) as (best & Hb & Hbin & Hbmax).
  destruct (reduce_greatest Entry.quantity _ Hne) as (most & Hm & Hmin & Hmmax).
  exists best, most. repeat split; try assumption.
  - unfold analyzeCart, mostExpensive, highestQty. rewrite Hb, Hm. reflexivity.
  - unfold analyzeCart, mostExpensive, highestQty. rewrite Hb, Hm. reflexivity.
Qed.

Lemma analyzeCart_reports_greatest_witness :
  exists best most,
    In best (getCartItems twoLines) /\
    (forall item, In item (getCartItems twoLines) ->
                  (Entry.price best <? Entry.price item) = false) /\
    In most (getCartItems twoLines) /\
    (forall item, In item (getCartItems twoLines) ->
                  (Entry.quantity most <? Entry.quantity item) = false) /\
    nth_error (fst (analyzeCart twoLines)) 2
    = Some ("├─ Most Expensive: " ++ Entry.product best ++ " ($"
              ++ toFixed 2 (Entry.price best) ++ ")") /\
    nth_error (fst (analyzeCart twoLines)) 3
    = Some ("├─ Highest Quantity: " ++ Entry.product most ++ " ("
              ++ Number_toString (Entry.quantity most) ++ " units)").
Proof.
  assert (Hne : getItemCount twoLines <> 0%nat) by discriminate.
  exact (analyzeCart_reports_greatest twoLines Hne).
Defined.

(* ===================================================================== *)
(** * createComparison                                                    *)
(* ===================================================================== *)

Lemma percentageOf_SAVE10 (code : value) :
  normalizesTo code "SAVE10" -> percentageOf code = Some 0.10.
Proof.
  destruct code as [| |b|x|c|z| | |]; simpl normalizesTo; try contradiction.
  intros H. unfold percentageOf. rewrite ownProperty_codes, H. reflexivity.
Qed.

Lemma percentageOf_SAVE20 (code : value) :
  normalizesTo code "SAVE20" -> percentageOf code = Some 0.20.
Proof.
  destruct code as [| |b|x|c|z| | |]; simpl normalizesTo; try contradiction.
  intros H. unfold percentageOf. rewrite ownProperty_codes, H. reflexivity.
Qed.

Lemma percentageOf_other (code : value) :
  ~ normalizesTo code "SAVE10" -> ~ normalizesTo code "SAVE20" ->
  percentageOf code = None.
Proof.
  destruct code as [| |b|x|c|z| | |]; simpl normalizesTo; try reflexivity.
  intros H1 H2. unfold percentageOf. rewrite ownProperty_codes.
  destruct (String.eqb_spec "SAVE10" (trim (toUpperCase c))) as [E|_];
    [symmetry in E; contradiction|].
  destruct (String.eqb_spec "SAVE20" (trim (toUpperCase c))) as [E|_];
    [symmetry in E; contradiction|].
  reflexivity.
Qed.

(** A code the table knows is a truthy value. *)
Lemma percentageOf_truthy (code : value) (percentage : float) :
  percentageOf code = Some percentage -> ToBoolean code = true.
Proof.
  destruct code as [| |b|x|c|z| | |]; try discriminate.
  destruct c; [discriminate | reflexivity].
Qed.

(** The cart [createComparison] builds before it looks at its argument. *)
Lemma createComparison_cart :
  this' (addItem (Str "Item Set") (Number 500) (Number 1) constructor)
  = mkCart [("Item Set", Item.make 500 1)] 0.
Proof. vm_compute. reflexivity. Qed.

(** The figures of that cart under each discount it can carry. *)
Lemma comparison_figures_plain :
  let cart := mkCart [("Item Set", Item.make 500 1)] 0 in
  (getSubtotal cart, getDiscount cart, getTax cart, getTotal cart)
  = (500, 0, 50, 550).
Proof. vm_compute. reflexivity. Qed.

Lemma comparison_figures_SAVE10 :
  let cart := mkCart [("Item Set", Item.make 500 1)] 0 in
  let cart := mkCart (items cart) (getSubtotal cart * 0.10) in
  (getSubtotal cart, getDiscount cart, getTax cart, getTotal cart)
  = (500, 50, 45, 495).
Proof. vm_compute. reflexivity. Qed.

Lemma comparison_figures_SAVE20 :
  let cart := mkCart [("Item Set", Item.make 500 1)] 0 in
  let cart := mkCart (items cart) (getSubtotal cart * 0.20) in
  (getSubtotal cart, getDiscount cart, getTax cart, getTotal cart)
  = (500, 100, 40, 440).
Proof. vm_compute. reflexivity. Qed.

Lemma createComparison_fields (discount : value) :
  let c := fst (createComparison discount) in
  (Comparison.subtotal c, Comparison.discountAmount c,
   Comparison.tax c, Comparison.total c)
  = (getSubtotal (comparedCart discount), getDiscount (comparedCart discount),
     getTax (comparedCart discount), getTotal (comparedCart discount)).
Proof. reflexivity. Qed.

(** The figures [createComparison] returns, by the table entry of its
    argument. *)
Lemma comparedCart_by_percentage (discount : value) :
  let cart := mkCart [("Item Set", Item.make 500 1)] 0 in
  comparedCart discount =
  match percentageOf discount with
  | Some percentage => mkCart (items cart) (getSubtotal cart * percentage)
  | None => cart
  end.
Proof.
  intros cart. unfold comparedCart. rewrite createComparison_cart. fold cart.
  destruct (applyDiscount_outcome discount cart) as [[N [line E]]|(pc & P & E)].
  - rewrite N. destruct (ToBoolean discount); [rewrite E|]; reflexivity.
  - rewrite P, (percentageOf_truthy discount pc P), E. reflexivity.
Qed.

(** X16: [createComparison] reports a subtotal of 500 for every argument;
    for an argument that normalises to SAVE10 it reports a discount of 50,
    a tax of 45 and a total of 495, for one that normalises to SAVE20 a
    discount of 100, a tax of 40 and a total of 440, and for any other
    argument no discount, a tax of 50 and a total of 550. *)
Theorem createComparison_figures (discount : value) :
  let c := fst (createComparison discount) in
  Comparison.subtotal c = 500 /\
  (normalizesTo discount "SAVE10" ->
   Comparison.discountAmount c = 50 /\ Comparison.tax c = 45 /\
   Comparison.total c = 495) /\
  (normalizesTo discount "SAVE20" ->
   Comparison.discountAmount c = 100 /\ Comparison.tax c = 40 /\
   Comparison.total c = 440) /\
  (~ normalizesTo discount "SAVE10" -> ~ normalizesTo discount "SAVE20" ->
   Comparison.discountAmount c = 0 /\ Comparison.tax c = 50 /\
   Comparison.total c = 550).
Proof.
  intros c. pose proof (createComparison_fields discount) as E.
  fold c in E. cbv zeta in E.
  pose proof (comparedCart_by_percentage discount) as Hc. cbv zeta in Hc.
  split; [|split; [|split]].
  - destruct (percentageOf discount) as [pc|] eqn:P; rewrite Hc in E.
    + destruct (percentageOf_values discount pc P) as [-> | ->].
      * pose proof comparison_figures_SAVE10 as F. cbv zeta in F.
        rewrite F in E. injection E as E1 _ _ _. exact E1.
      * pose proof comparison_figures_SAVE20 as F. cbv zeta in F.
        rewrite F in E. injection E as E1 _ _ _. exact E1.
    + pose proof comparison_figures_plain as F. cbv zeta in F.
      rewrite F in E. injection E as E1 _ _ _. exact E1.
  - intros H. rewrite (percentageOf_SAVE10 discount H) in Hc. rewrite Hc in E.
    pose proof comparison_figures_SAVE10 as F. cbv zeta in F.
    rewrite F in E. injection E as _ E2 E3 E4. exact (conj E2 (conj E3 E4)).
  - intros H. rewrite (percentageOf_SAVE20 discount H) in Hc. rewrite Hc in E.
    pose proof comparison_figures_SAVE20 as F. cbv zeta in F.
    rewrite F in E. injection E as _ E2 E3 E4. exact (conj E2 (conj E3 E4)).
  - intros H1 H2. rewrite (percentageOf_other discount H1 H2) in Hc.
    rewrite Hc in E.
    pose proof comparison_figures_plain as F. cbv zeta in F.
    rewrite F in E. injection E as _ E2 E3 E4. exact (conj E2 (conj E3 E4)).
Qed.

Lemma createComparison_figures_witness :
  (Comparison.discountAmount (fst (createComparison (Str paddedSave10))) = 50 /\
   Comparison.tax (fst (createComparison (Str paddedSave10))) = 45 /\
   Comparison.total (fst (createComparison (Str paddedSave10))) = 495) /\
  (Comparison.discountAmount (fst (createComparison (Str "SAVE20"))) = 100 /\
   Comparison.tax (fst (createComparison (Str "SAVE20"))) = 40 /\
   Comparison.total (fst (createComparison (Str "SAVE20"))) = 440) /\
  (Comparison.discountAmount (fst (createComparison Null)) = 0 /\
   Comparison.tax (fst (createComparison Null)) = 50 /\
   Comparison.total (fst (createComparison Null)) = 550).
Proof.
  exact (conj
    (proj1 (proj2 (createComparison_figures (Str paddedSave10))) eq_refl)
    (conj
    (proj1 (proj2 (proj2 (createComparison_figures (Str "SAVE20")))) eq_refl)
    (proj2 (proj2 (proj2 (createComparison_figures Null)))
       (fun H => H) (fun H => H)))).
Defined.

(* ===================================================================== *)
(** * Removing a product and adding it again                              *)
(* ===================================================================== *)

(** X19: on a cart with distinct non-empty products, removing a product
    and adding it again with valid arguments returns true, lists the
    product after all the others, which keep their order, stores the price
    and quantity of the new call and leaves the count as it was. *)
Theorem readded_product_goes_last
  (this : ShoppingCart) (p : string) (x q : float) :
  wellFormed this ->
  Map.has p (items this) = true ->
  (x <? 0) = false ->
  Number_isInteger (Number q) = true -> (q <=? 0) = false ->
  let removed := this' (removeItem (Str p) this) in
  let r := addItem (Str p) (Number x) (Number q) removed in
  returned r = true /\
  List.map fst (items (this' r))
  = (filter (fun k => negb (String.eqb k p)) (List.map fst (items this)) ++ [p])%list /\
  Map.get p (items (this' r)) = Some (Item.make (parseFloat x) (parseInt q)) /\
  getItemCount (this' r) = getItemCount this.
Proof.
  intros Hwf Hhas Hx Hi Hq removed r. subst r removed.
  pose proof (wellFormed_product_nonempty this p Hwf Hhas) as Hp.
  destruct Hwf as [Hnd _].
  rewrite (removeItem_present this p Hp Hhas). simpl this'.
  assert (Hgone : Map.has p (Map.delete p (items this)) = false)
    by (apply has_delete; exact Hnd).
  rewrite addItem_new; [|exact Hp|exact Hx|exact Hi|exact Hq|exact Hgone].
  cbn [this' items returned]. split; [reflexivity|]. split; [|split].
  - rewrite map_app, (keys_delete p (items this) Hnd). reflexivity.
  - apply get_app_absent. unfold Map.has in Hgone.
    destruct (Map.get p (Map.delete p (items this))); [discriminate | reflexivity].
  - unfold getItemCount. cbn [items]. unfold Map.size at 1.
    rewrite length_app. cbn [List.length]. rewrite Nat.add_1_r.
    apply (size_delete p (items this) Hhas).
Qed.

Lemma readded_product_goes_last_witness :
  List.map fst
    (items (this' (addItem (Str "Pen") (Number 3) (Number 1)
                     (this' (removeItem (Str "Pen") twoLines)))))
  = ["Ink"; "Pen"] /\
  Map.get "Pen"
    (items (this' (addItem (Str "Pen") (Number 3) (Number 1)
                     (this' (removeItem (Str "Pen") twoLines)))))
  = Some (Item.make 3 1).
Proof.
  destruct (readded_product_goes_last twoLines "Pen" 3 1 wellFormed_twoLines
              eq_refl eq_refl eq_refl eq_refl) as (_ & H2 & H3 & _).
  exact (conj H2 H3).
Defined.
